(** * tmux-iterm-command: the [TmuxManager] operations

    A shallow embedding of [TmuxManager] (src/tmux_iterm_command/manager.py):
    [__init__], [session], [_find_pane_by_index], [capture_pane],
    [wait_idle], [create_window], [create_pane], [send_command],
    [kill_window] and [kill_pane]; the properties of the idle detector
    stated in the specification, and further properties of the manager.

    Durations and timestamps are rationals.  The clock is the clock the
    detector reads with [time.time()]: [time.sleep(d)] advances it by [d],
    and a pane capture, a blocking call to the external multiplexer,
    advances it by the time the capture takes, which is not negative.  The
    n-th answer of a pane and the time it takes are given by the pane's
    [screen] and [took].  The steps of the interpreter between two such
    calls, the lookup of a window and a pane, and the other calls on tmux
    (new window, split, send keys, kill) take no time on this clock. *)

From Stdlib Require Import String Ascii List Bool ZArith QArith Qround Lia Lqa.
From Stdlib Require Import DecimalString.
Import ListNotations.

Set Implicit Arguments.
Open Scope string_scope.

(** ** Python values *)

Module Py.

(** [str(i)] for an [int]. *)
Definition str (i : Z) : string := NilZero.string_of_int (Z.to_int i).

(** ['\n'.join(l)]. *)
Definition newline : string := String "010"%char EmptyString.
Definition join_lines (l : list string) : string := String.concat newline l.

(** [len(l)]. *)
Definition len {A} (l : list A) : Z := Z.of_nat (length l).

(** [l[start:]] for an arbitrary [int] start: a negative start counts
    from the end, and both ends saturate. *)
Definition slice_from {A} (l : list A) (start : Z) : list A :=
  let n := len l in
  let s := if (start <? 0)%Z then Z.max (start + n) 0 else Z.min start n in
  skipn (Z.to_nat s) l.

(** Truth value of a list: [if l]. *)
Definition truthy {A} (l : list A) : bool :=
  match l with [] => false | _ :: _ => true end.

(** [x < y] and [x >= y] on durations. *)
Definition lt (x y : Q) : bool := negb (Qle_bool y x).
Definition ge (x y : Q) : bool := Qle_bool y x.

(** [a != b] on [str]. *)
Definition ne (a b : string) : bool := negb (String.eqb a b).

(** The longest sleep [time.sleep] takes: what fits a signed 64-bit count
    of nanoseconds. *)
Definition sleep_max : Q := 9223372036854775807 # 1000000000.

(** What [time.sleep(secs)] raises with, if it does: a [ValueError] for a
    negative length, an [OverflowError] for one that is too long. *)
Definition sleep_refuses (secs : Q) : option string :=
  if lt secs 0 then Some "sleep length must be non-negative"
  else if lt sleep_max secs
       then Some "timestamp too large to convert to C _PyTime_t"
       else None.

End Py.

(** ** The libtmux objects the manager talks to *)

(** What [pane.capture_pane()] hands back: a list of lines or [None]. *)
Definition snapshot := option (list string).

(** One call of [pane.capture_pane()]: it returns, or it raises an
    exception [e] with [str(e) = msg]. *)
Inductive capture :=
| Returns (s : snapshot)
| Raises (msg : string).

(** A length of time, which is never negative: [num/den] seconds. *)
Record span := mkSpan {
  span_num : N;
  span_den : positive
}.

Definition seconds (d : span) : Q := Z.of_N (span_num d) # span_den d.

Definition instant : span := mkSpan 0 1.

Record Pane := mkPane {
  pane_index : string;
  pane_id : string;
  (** the answer of the n-th capture of the pane, n counted from 0 *)
  screen : nat -> capture;
  (** the time the n-th capture takes, whether it returns or raises *)
  took : nat -> span
}.

Record Window := mkWindow {
  window_index : string;
  panes : list Pane
}.

Record Session := mkSession {
  session_id : string;
  windows : list Window
}.

Record TmuxManager := mkManager {
  session_name : string;
  _session : option Session
}.

(** ** The environment: clock and call counters *)

Record world := mkWorld {
  clock : Q;            (** what [time.time()] returns *)
  lookups : nat;        (** calls of [session.find_where] so far *)
  fetch_calls : nat;    (** calls of [pane.capture_pane] so far *)
  fetch_returns : nat   (** those of them that returned *)
}.

Definition slept (d : Q) (w : world) : world :=
  mkWorld (clock w + d) (lookups w) (fetch_calls w) (fetch_returns w).

Definition looked (w : world) : world :=
  mkWorld (clock w) (S (lookups w)) (fetch_calls w) (fetch_returns w).

(** The world after the next capture of pane [p]: the time the capture
    took has passed. *)
Definition fetched (p : Pane) (completed : bool) (w : world) : world :=
  mkWorld (clock w + seconds (took p (fetch_calls w)))
          (lookups w) (S (fetch_calls w))
          (if completed then S (fetch_returns w) else fetch_returns w).

(** ** Computations that read the world and may raise *)

Inductive reply (A : Type) :=
| Ok (a : A)
| Raise (msg : string).
Arguments Raise {A} msg.

Definition M (A : Type) := world -> reply A * world.

Definition ret {A} (a : A) : M A := fun w => (Ok a, w).

Definition raise {A} (msg : string) : M A := fun w => (Raise msg, w).

Definition bind {A B} (c : M A) (k : A -> M B) : M B :=
  fun w => match c w with
           | (Ok a, w') => k a w'
           | (Raise msg, w') => (Raise msg, w')
           end.

Notation "x <- c ;; k" := (bind c (fun x => k))
  (at level 61, c at next level, right associativity).
Notation "c ;;; k" := (bind c (fun _ => k))
  (at level 61, right associativity).

(** [try: c  except Exception as e: h(str(e))]. *)
Definition try_except {A} (c : M A) (h : string -> A) : world -> A * world :=
  fun w => match c w with
           | (Ok a, w') => (a, w')
           | (Raise msg, w') => (h msg, w')
           end.

(** [time.time()]. *)
Definition time_time : M Q := fun w => (Ok (clock w), w).

(** [time.sleep(secs)]: it raises at once for a length it does not take,
    and else returns when the length has passed. *)
Definition time_sleep (secs : Q) : M unit :=
  fun w => match Py.sleep_refuses secs with
           | Some msg => (Raise msg, w)
           | None => (Ok tt, slept secs w)
           end.

(** [pane.capture_pane()]. *)
Definition pane_capture_pane (p : Pane) : M snapshot :=
  fun w => match screen p (fetch_calls w) with
           | Returns s => (Ok s, fetched p true w)
           | Raises msg => (Raise msg, fetched p false w)
           end.

(** [session.find_where({'window_index': key})]: the first window with that
    index, or [None]. *)
Definition find_window (s : Session) (key : string) : option Window :=
  find (fun win => String.eqb (window_index win) key) (windows s).

Definition session_find_where (s : Session) (key : string) : M (option Window) :=
  fun w => (Ok (find_window s key), looked w).

(** ** Responses: the dictionaries the manager returns *)

Inductive response :=
| CaptureSuccess (content : string) (lines : Z)
                 (window_index pane_index : Z) (session : string)
| WaitSuccess (elapsed : Q) (window_index pane_index : Z) (session : string)
| WaitTimeout (elapsed timeout : Q)
              (window_index pane_index : Z) (session : string)
| Error (message code : string).

Definition status (r : response) : string :=
  match r with
  | CaptureSuccess _ _ _ _ _ | WaitSuccess _ _ _ _ => "success"
  | WaitTimeout _ _ _ _ _ => "timeout"
  | Error _ _ => "error"
  end.

(** ** TmuxManager *)

(** The [session] property. *)
Definition session (self : TmuxManager) : M Session :=
  match _session self with
  | None => raise
      "No tmux session available - please ensure at least one session exists"
  | Some s => ret s
  end.

(** The loop [for pane in window.panes: if pane.pane_index == key: ...]. *)
Definition find_pane (win : Window) (key : string) : option Pane :=
  find (fun p => String.eqb (pane_index p) key) (panes win).

Definition _find_pane_by_index (self : TmuxManager) (window_index pane_index : Z)
  : M (option Window * option Pane * option string) :=
  s <- session self ;;
  window <- session_find_where s (Py.str window_index) ;;
  match window with
  | None =>
      ret (None, None, Some ("Window " ++ Py.str window_index ++ " not found"))
  | Some window =>
      match find_pane window (Py.str pane_index) with
      | Some pane => ret (Some window, Some pane, None)
      | None =>
          ret (Some window, None,
               Some ("Pane " ++ Py.str pane_index ++ " not found in window "
                       ++ Py.str window_index))
      end
  end.

(** Lines 231-234 and 188-191: [None] becomes the empty list, and the lines
    are joined with newlines ([''] for the empty list). *)
Definition lines_of (s : snapshot) : list string :=
  match s with None => [] | Some l => l end.

Definition normalize (s : snapshot) : string :=
  let current_content := lines_of s in
  if Py.truthy current_content then Py.join_lines current_content else "".

Definition capture_pane (self : TmuxManager) (window_index pane_index : Z)
    (lines : Z) : world -> response * world :=
  try_except
    (found <- _find_pane_by_index self window_index pane_index ;;
     match found with
     | (_, _, Some error) => ret (Error error "PANE_NOT_FOUND")
     | (_, None, None) =>
         (* no error and no pane: not produced by the lookup *)
         raise "'NoneType' object has no attribute 'capture_pane'"
     | (_, Some target_pane, None) =>
         result <- pane_capture_pane target_pane ;;
         let result := lines_of result in
         let result := if (Py.len result >? lines)%Z
                       then Py.slice_from result (- lines)
                       else result in
         let output := if Py.truthy result then Py.join_lines result else "" in
         ret (CaptureSuccess output (Py.len result)
                             window_index pane_index (session_name self))
     end)
    (fun msg => Error msg "CAPTURE_PANE_FAILED").

(** *** The idle detector *)

(** The local variables of [wait_idle] that live across iterations. *)
Record idle_state := mkIdle {
  start_time : Q;
  last_content : string;
  last_change_time : Q
}.

(** How one pass through the loop ends: it goes round again, or the
    function returns. *)
Inductive flow :=
| Continue (st : idle_state)
| Return (r : response).

Section IdleDetector.

Variable self : TmuxManager.
Variables window_index pane_index : Z.
Variables timeout quiet_for poll_interval : Q.
Variable target_pane : Pane.

(** Lines 231-247: the body of the loop up to the sleep. *)
Definition loop_body (st : idle_state) : M flow :=
  current_content <- pane_capture_pane target_pane ;;
  let current_content_str := normalize current_content in
  if Py.ne current_content_str (last_content st) then
    now <- time_time ;;
    ret (Continue (mkIdle (start_time st) current_content_str now))
  else
    now <- time_time ;;
    if Py.ge (now - last_change_time st) quiet_for then
      now <- time_time ;;
      let elapsed := now - start_time st in
      ret (Return (WaitSuccess elapsed window_index pane_index
                               (session_name self)))
    else
      ret (Continue st).

(** Lines 230-259: the loop test, then either the body followed by the
    sleep, or the code after the loop. *)
Definition loop_iter (st : idle_state) : M flow :=
  now <- time_time ;;
  if Py.lt (now - start_time st) timeout then
    fl <- loop_body st ;;
    match fl with
    | Return r => ret (Return r)
    | Continue st' => time_sleep poll_interval ;;; ret (Continue st')
    end
  else
    now <- time_time ;;
    let elapsed := now - start_time st in
    ret (Return (WaitTimeout elapsed timeout window_index pane_index
                             (session_name self))).

(** The [while] loop, cut after [fuel] evaluations of its test; [None]
    when the cut is reached. *)
Fixpoint wait_loop (fuel : nat) (st : idle_state) : M (option response) :=
  match fuel with
  | O => ret None
  | S fuel' =>
      fl <- loop_iter st ;;
      match fl with
      | Return r => ret (Some r)
      | Continue st' => wait_loop fuel' st'
      end
  end.

(** Lines 226-259 for the pane found. *)
Definition detect (fuel : nat) : M (option response) :=
  start_time <- time_time ;;
  wait_loop fuel (mkIdle start_time "" start_time).

End IdleDetector.

Definition wait_idle (fuel : nat) (self : TmuxManager)
    (window_index pane_index : Z) (timeout quiet_for poll_interval : Q)
  : world -> option response * world :=
  try_except
    (found <- _find_pane_by_index self window_index pane_index ;;
     match found with
     | (_, _, Some error) => ret (Some (Error error "PANE_NOT_FOUND"))
     | (_, None, None) =>
         raise "'NoneType' object has no attribute 'capture_pane'"
     | (_, Some target_pane, None) =>
         detect self window_index pane_index timeout quiet_for poll_interval
                target_pane fuel
     end)
    (fun msg => Some (Error msg "WAIT_IDLE_FAILED")).

(** *** The loop as a transition system *)

(** The detection state at the first test of the loop (lines 226-228). *)
Definition initial_state (w : world) : idle_state :=
  mkIdle (clock w) "" (clock w).

Section IdleTransitions.

Variable self : TmuxManager.
Variables window_index pane_index : Z.
Variables timeout quiet_for poll_interval : Q.
Variable target_pane : Pane.

Local Abbreviation iter := (loop_iter self window_index pane_index
                            timeout quiet_for poll_interval target_pane).
Local Abbreviation success e := (WaitSuccess e window_index pane_index
                                   (session_name self)).
Local Abbreviation timed_out e := (WaitTimeout e timeout window_index pane_index
                                     (session_name self)).
(** One full pass through the loop that comes back to the test. *)
Definition step (w : world) (st : idle_state)
                (w' : world) (st' : idle_state) : Prop :=
  iter st w = (Ok (Continue st'), w').

(** The loop heads a run passes through. *)
Inductive reaches (w : world) (st : idle_state)
  : world -> idle_state -> Prop :=
| reaches_here : reaches w st w st
| reaches_step w1 st1 w2 st2 :
    reaches w st w1 st1 -> step w1 st1 w2 st2 -> reaches w st w2 st2.

(** The world after the capture of a pass. *)
Local Abbreviation captured w := (fetched target_pane true w).

(** The seven ways a pass through the loop can go: the test fails; the
    capture raises; the text has changed, and the sleep goes well or raises;
    the text is the same and the pane has been quiet long enough; or it is
    the same but not for long enough, and the sleep goes well or raises.
    The clock is read for the test before the capture and for everything
    else after it. *)
Inductive iter_case (st : idle_state) (w : world) : Prop :=
| pass_timeout :
    timeout <= clock w - start_time st ->
    iter st w = (Ok (Return (timed_out (clock w - start_time st))), w) ->
    iter_case st w
| pass_raises msg :
    clock w - start_time st < timeout ->
    screen target_pane (fetch_calls w) = Raises msg ->
    iter st w = (Raise msg, fetched target_pane false w) ->
    iter_case st w
| pass_change s :
    clock w - start_time st < timeout ->
    screen target_pane (fetch_calls w) = Returns s ->
    normalize s <> last_content st ->
    0 <= poll_interval -> poll_interval <= Py.sleep_max ->
    iter st w =
    (Ok (Continue (mkIdle (start_time st) (normalize s)
                          (clock (captured w)))),
     slept poll_interval (captured w)) ->
    iter_case st w
| pass_change_bad_sleep s msg :
    clock w - start_time st < timeout ->
    screen target_pane (fetch_calls w) = Returns s ->
    normalize s <> last_content st ->
    poll_interval < 0 \/ Py.sleep_max < poll_interval ->
    Py.sleep_refuses poll_interval = Some msg ->
    iter st w = (Raise msg, captured w) ->
    iter_case st w
| pass_idle s :
    clock w - start_time st < timeout ->
    screen target_pane (fetch_calls w) = Returns s ->
    normalize s = last_content st ->
    quiet_for <= clock (captured w) - last_change_time st ->
    iter st w = (Ok (Return (success (clock (captured w) - start_time st))),
                 captured w) ->
    iter_case st w
| pass_same s :
    clock w - start_time st < timeout ->
    screen target_pane (fetch_calls w) = Returns s ->
    normalize s = last_content st ->
    clock (captured w) - last_change_time st < quiet_for ->
    0 <= poll_interval -> poll_interval <= Py.sleep_max ->
    iter st w = (Ok (Continue st), slept poll_interval (captured w)) ->
    iter_case st w
| pass_same_bad_sleep s msg :
    clock w - start_time st < timeout ->
    screen target_pane (fetch_calls w) = Returns s ->
    normalize s = last_content st ->
    clock (captured w) - last_change_time st < quiet_for ->
    poll_interval < 0 \/ Py.sleep_max < poll_interval ->
    Py.sleep_refuses poll_interval = Some msg ->
    iter st w = (Raise msg, captured w) ->
    iter_case st w.

End IdleTransitions.

(** The text the pane shows at its n-th capture, when the capture returns. *)
Definition blob (p : Pane) (n : nat) : option string :=
  match screen p n with
  | Returns s => Some (normalize s)
  | Raises _ => None
  end.

(** The lookup of [_find_pane_by_index] finds pane [p]. *)
Definition resolves (self : TmuxManager) (window_index pane_index : Z)
                    (p : Pane) : Prop :=
  exists s win,
    _session self = Some s /\
    find_window s (Py.str window_index) = Some win /\
    find_pane win (Py.str pane_index) = Some p.

(** The lookup finds no such window, or no such pane in the window. *)
Definition unresolved (self : TmuxManager) (window_index pane_index : Z)
  : Prop :=
  exists s,
    _session self = Some s /\
    match find_window s (Py.str window_index) with
    | None => True
    | Some win => find_pane win (Py.str pane_index) = None
    end.

(** A nat as a duration factor. *)
Definition times (n : nat) (d : Q) : Q := inject_Z (Z.of_nat n) * d.

(** The time from the loop test made when pane [p] has been captured [c]
    times to the loop test [k] passes later, when these passes all sleep:
    each takes the time of its capture and a poll interval. *)
Fixpoint poll_start (p : Pane) (c : nat) (poll_interval : Q) (k : nat) : Q :=
  match k with
  | O => 0
  | S k' => poll_start p c poll_interval k'
            + seconds (took p (c + k')) + poll_interval
  end.


(** The specification's text of a snapshot: the lines put together, a
    newline between one line and the next; nothing for no lines and for a
    capture that gave [None]. *)
Fixpoint concatenated_lines (l : list string) : string :=
  match l with
  | [] => ""
  | [x] => x
  | x :: rest => x ++ String "010"%char (concatenated_lines rest)
  end.

Definition concatenated (s : snapshot) : string :=
  match s with
  | None => ""
  | Some l => concatenated_lines l
  end.

(** The detection state is well formed: the last change is not before the
    start and not after the present. *)
Definition well_timed (w : world) (st : idle_state) : Prop :=
  start_time st <= last_change_time st /\ last_change_time st <= clock w.

(** The responses [wait_idle] can give. *)
Definition wait_outcome (r : response) : Prop :=
  match r with
  | WaitSuccess _ _ _ _ | WaitTimeout _ _ _ _ _ | Error _ _ => True
  | CaptureSuccess _ _ _ _ _ => False
  end.

(** Two captures with the same concatenated text, or that both raise with
    the same message. *)
Definition same_capture (c c' : capture) : Prop :=
  match c, c' with
  | Returns s, Returns s' => concatenated s = concatenated s'
  | Raises m, Raises m' => m = m'
  | _, _ => False
  end.

(** The last [m] elements of a list. *)
Definition lastn {A} (m : nat) (l : list A) : list A :=
  skipn (length l - m) l.

(** ** Sample sessions *)

(** A pane that always shows the line [abc]. *)
Definition abc_pane : Pane :=
  mkPane "0" "%0" (fun _ => Returns (Some ["abc"])) (fun _ => instant).

(** A pane whose text differs at every capture (a growing run of [x]). *)
Fixpoint xs (n : nat) : string :=
  match n with O => "x" | S n' => String "x"%char (xs n') end.

Definition busy_pane : Pane :=
  mkPane "1" "%1" (fun n => Returns (Some [xs n])) (fun _ => instant).

(** A pane whose third capture raises. *)
Definition flaky_pane : Pane :=
  mkPane "2" "%2"
         (fun n => match n with
                   | 0%nat => Returns (Some ["a"])
                   | 1%nat => Returns (Some ["a"; "b"])
                   | _ => Raises "can't find pane"
                   end)
         (fun _ => instant).

(** A pane with five lines on it. *)
Definition log_pane : Pane :=
  mkPane "3" "%3" (fun _ => Returns (Some ["l1"; "l2"; "l3"; "l4"; "l5"]))
         (fun _ => instant).

(** A pane for which the multiplexer returns [None]. *)
Definition none_pane : Pane :=
  mkPane "4" "%4" (fun _ => Returns None) (fun _ => instant).

(** A pane that shows one empty line. *)
Definition blank_pane : Pane :=
  mkPane "4" "%5" (fun _ => Returns (Some [""])) (fun _ => instant).

Definition dev_window : Window :=
  mkWindow "1" [abc_pane; busy_pane; flaky_pane; log_pane; none_pane].

Definition dev_session : Session := mkSession "$0" [dev_window].

Definition dev : TmuxManager := mkManager "dev" (Some dev_session).

(** The same session with the blank pane in place of the [None] pane. *)
Definition dev_blank_window : Window :=
  mkWindow "1" [abc_pane; busy_pane; flaky_pane; log_pane; blank_pane].

Definition dev_blank : TmuxManager :=
  mkManager "dev" (Some (mkSession "$0" [dev_blank_window])).

Definition world0 : world := mkWorld 0 0 0 0.

(** A session on a loaded machine, where a capture takes its time: a pane
    that shows nothing and takes 4 s to capture, and a pane whose text
    differs at every capture and takes 0.3 s to capture. *)
Definition slow_blank_pane : Pane :=
  mkPane "0" "%6" (fun _ => Returns None) (fun _ => mkSpan 4 1).

Definition slow_busy_pane : Pane :=
  mkPane "1" "%7" (fun n => Returns (Some [xs n])) (fun _ => mkSpan 3 10).

Definition slow_window : Window :=
  mkWindow "1" [slow_blank_pane; slow_busy_pane].

Definition slow_session : Session := mkSession "$2" [slow_window].

Definition slow : TmuxManager := mkManager "slow" (Some slow_session).

(** ** The manager as constructed, and the operations that act on tmux *)

(** A session as [server.list_sessions()] gives it: the name it is listed
    under, [session.get('session_name')], and the session itself. *)
Record ListedSession := mkListed {
  listed_name : string;
  listed : Session
}.

(** The whole of [self]: the session part used so far, and the two flags
    [__init__] sets beside it. *)
Record ManagerObject := mkObject {
  manager : TmuxManager;
  verbose : bool;
  inside_tmux : bool
}.

(** [bool(s)] for an optional string: [None] and [''] are false. *)
Definition truthy_str (s : option string) : bool :=
  match s with
  | Some (String _ _) => true
  | _ => false
  end.

(** [TmuxManager.__init__], given what the server lists and the value of
    the environment variable [TMUX]. *)
Definition __init__ (server_sessions : list ListedSession)
    (tmux_env : option string) (session_name : string) (verbose : bool)
  : ManagerObject :=
  let inside_tmux := truthy_str tmux_env in
  match find (fun s => String.eqb (listed_name s) session_name)
             server_sessions with
  | Some s => mkObject (mkManager session_name (Some (listed s)))
                       verbose inside_tmux
  | None =>
      match server_sessions with
      | s :: _ => mkObject (mkManager (listed_name s) (Some (listed s)))
                           verbose inside_tmux
      | [] => mkObject (mkManager session_name None) verbose inside_tmux
      end
  end.

(** The dictionaries the acting operations return. *)
Inductive outcome :=
| WindowCreated (window_id : string) (window_index : Z)
                (pane_id name session : string) (inside_tmux : bool)
| PaneCreated (pane_id : string) (window_index : Z)
              (orientation session : string)
| CommandSent (command : string) (window_index pane_index : Z)
              (session : string)
| WindowKilled (window_index : Z) (session : string)
| PaneKilled (window_index pane_index : Z) (session : string)
| Failed (message code : string).

(** What an operation does, in the order it does it: the calls that act
    on the server, the sleeps it completes, and its lines on standard
    output (the text printed is a label followed by the dictionary). *)
Inductive action :=
| NewWindow (s : Session) (window_name : string)
| SplitWindow (win : Window) (vertical : bool)
| SendKeys (target : Pane) (keys : string) (enter : bool)
| KillWindow (win : Window)
| KillPane (target : Pane)
| Slept (secs : Q)
| Printed (label : string) (value : outcome).

(** What lies outside the repository: how the libtmux calls answer (a call
    returns, or raises with a message), and Python's [int] on strings. *)
Record External := mkExternal {
  new_window_gives : Session -> string -> reply Window;
  attached_pane : Window -> option Pane;
  split_window_gives : Window -> bool -> reply Pane;
  send_keys_raises : Pane -> string -> bool -> option string;
  kill_window_raises : Window -> option string;
  kill_pane_raises : Pane -> option string;
  int_of : string -> reply Z
}.

(** The world with the calls made so far, oldest first. *)
Record host := mkHost {
  env : world;
  calls : list action
}.

Definition H (A : Type) := host -> reply A * host.

Definition hret {A} (a : A) : H A := fun h => (Ok a, h).

Definition hraise {A} (msg : string) : H A := fun h => (Raise msg, h).

Definition hbind {A B} (c : H A) (k : A -> H B) : H B :=
  fun h => match c h with
           | (Ok a, h') => k a h'
           | (Raise msg, h') => (Raise msg, h')
           end.

Notation "x <-- c ;; k" := (hbind c (fun x => k))
  (at level 61, c at next level, right associativity).
Notation "c ;;;; k" := (hbind c (fun _ => k))
  (at level 61, right associativity).

Definition htry_except {A} (c : H A) (handler : string -> A)
  : host -> A * host :=
  fun h => match c h with
           | (Ok a, h') => (a, h')
           | (Raise msg, h') => (handler msg, h')
           end.

(** A computation on the world alone, run in the host. *)
Definition lift {A} (c : M A) : H A :=
  fun h => match c (env h) with
           | (r, w') => (r, mkHost w' (calls h))
           end.

Definition recorded (a : action) (h : host) : host :=
  mkHost (env h) (calls h ++ [a]).

(** A call that returns nothing: it is made, and returns or raises. *)
Definition call (a : action) (raises : option string) : H unit :=
  fun h => match raises with
           | None => (Ok tt, recorded a h)
           | Some msg => (Raise msg, recorded a h)
           end.

(** A call that returns a value. *)
Definition call_for {A} (a : action) (gives : reply A) : H A :=
  fun h => (gives, recorded a h).

Definition print_dict (label : string) (value : outcome) : H unit :=
  fun h => (Ok tt, recorded (Printed label value) h).

(** [time.sleep(secs)] in the host: the sleep is noted when it is over. *)
Definition sleep_for (secs : Q) : H unit :=
  fun h => match lift (time_sleep secs) h with
           | (Ok tt, h') => (Ok tt, recorded (Slept secs) h')
           | (Raise msg, h') => (Raise msg, h')
           end.

Section Acting.

Variable ext : External.
Variable self : ManagerObject.

(** [if self.verbose: print(f"<label>{result}")]. *)
Definition trace (label : string) (result : outcome) : H unit :=
  if verbose self then print_dict label result else hret tt.

Definition create_window (window_name : string) (command : option string)
    (shell : string) : host -> outcome * host :=
  htry_except
    (s <-- lift (session (manager self)) ;;
     window <-- call_for (NewWindow s window_name)
                         (new_window_gives ext s window_name) ;;
     match attached_pane ext window with
     | None => hraise "No attached pane found in new window"
     | Some pane =>
         call (SendKeys pane shell true)
              (send_keys_raises ext pane shell true) ;;;;
         sleep_for (1 # 5) ;;;;
         (match command with
          | Some (String c0 cs) =>
              call (SendKeys pane (String c0 cs) true)
                   (send_keys_raises ext pane (String c0 cs) true)
          | _ => hret tt
          end) ;;;;
         s' <-- lift (session (manager self)) ;;
         index <-- (fun h => (int_of ext (window_index window), h)) ;;
         let result :=
           WindowCreated (session_id s' ++ ":" ++ window_index window)
                         index (pane_id pane) window_name
                         (session_name (manager self)) (inside_tmux self) in
         trace "Created window: " result ;;;;
         hret result
     end)
    (fun msg => Failed msg "CREATE_WINDOW_FAILED").

Definition create_pane (window_index : Z) (vertical : bool)
    (command : option string) : host -> outcome * host :=
  htry_except
    (s <-- lift (session (manager self)) ;;
     window <-- lift (session_find_where s (Py.str window_index)) ;;
     match window with
     | None =>
         hret (Failed ("Window " ++ Py.str window_index ++ " not found")
                      "WINDOW_NOT_FOUND")
     | Some window =>
         new_pane <-- call_for (SplitWindow window vertical)
                               (split_window_gives ext window vertical) ;;
         (match command with
          | Some (String c0 cs) =>
              call (SendKeys new_pane (String c0 cs) true)
                   (send_keys_raises ext new_pane (String c0 cs) true)
          | _ => hret tt
          end) ;;;;
         let result :=
           PaneCreated (pane_id new_pane) window_index
                       (if vertical then "vertical" else "horizontal")
                       (session_name (manager self)) in
         trace "Created pane: " result ;;;;
         hret result
     end)
    (fun msg => Failed msg "CREATE_PANE_FAILED").

Definition send_command (window_index pane_index : Z) (command : string)
    (enter : bool) : host -> outcome * host :=
  htry_except
    (found <-- lift (_find_pane_by_index (manager self)
                                         window_index pane_index) ;;
     match found with
     | (_, _, Some error) => hret (Failed error "PANE_NOT_FOUND")
     | (_, None, None) =>
         hraise "'NoneType' object has no attribute 'send_keys'"
     | (_, Some target_pane, None) =>
         call (SendKeys target_pane command enter)
              (send_keys_raises ext target_pane command enter) ;;;;
         let result :=
           CommandSent command window_index pane_index
                       (session_name (manager self)) in
         trace "Sent command: " result ;;;;
         hret result
     end)
    (fun msg => Failed msg "SEND_COMMAND_FAILED").

Definition kill_window (window_index : Z) : host -> outcome * host :=
  htry_except
    (s <-- lift (session (manager self)) ;;
     window <-- lift (session_find_where s (Py.str window_index)) ;;
     match window with
     | None =>
         hret (Failed ("Window " ++ Py.str window_index ++ " not found")
                      "WINDOW_NOT_FOUND")
     | Some window =>
         call (KillWindow window) (kill_window_raises ext window) ;;;;
         hret (WindowKilled window_index (session_name (manager self)))
     end)
    (fun msg => Failed msg "KILL_WINDOW_FAILED").

(** The loop of [kill_pane] over [window.panes], with its [break]. *)
Fixpoint first_pane (key : string) (ps : list Pane) : option Pane :=
  match ps with
  | [] => None
  | pane :: rest =>
      if String.eqb (pane_index pane) key then Some pane
      else first_pane key rest
  end.

Definition kill_pane (window_index pane_index : Z)
  : host -> outcome * host :=
  htry_except
    (s <-- lift (session (manager self)) ;;
     window <-- lift (session_find_where s (Py.str window_index)) ;;
     match window with
     | None =>
         hret (Failed ("Window " ++ Py.str window_index ++ " not found")
                      "WINDOW_NOT_FOUND")
     | Some window =>
         match first_pane (Py.str pane_index) (panes window) with
         | None =>
             hret (Failed ("Pane " ++ Py.str pane_index
                             ++ " not found in window "
                             ++ Py.str window_index)
                          "PANE_NOT_FOUND")
         | Some target_pane =>
             call (KillPane target_pane)
                  (kill_pane_raises ext target_pane) ;;;;
             hret (PaneKilled window_index pane_index
                              (session_name (manager self)))
         end
     end)
    (fun msg => Failed msg "KILL_PANE_FAILED").

End Acting.

(** The calls on tmux among a list of actions, the sleeps and the printed
    lines left out. *)
Definition tmux_calls (l : list action) : list action :=
  filter (fun a => match a with
                   | Printed _ _ | Slept _ => false
                   | _ => true
                   end) l.

(** The calls and the sleeps in their order, the printed lines left out. *)
Definition doings (l : list action) : list action :=
  filter (fun a => match a with Printed _ _ => false | _ => true end) l.

(** The calls [if command: pane.send_keys(command, enter=True)] makes, and
    the message it raises with when it does. *)
Definition command_keys (target : Pane) (command : option string)
  : list action :=
  match command with
  | Some (String c0 cs) => [SendKeys target (String c0 cs) true]
  | _ => []
  end.

Definition command_raises (ext : External) (target : Pane)
    (command : option string) : option string :=
  match command with
  | Some (String c0 cs) => send_keys_raises ext target (String c0 cs) true
  | _ => None
  end.

(** The message of the [session] property when there is no session. *)
Definition no_session : string :=
  "No tmux session available - please ensure at least one session exists".

(** ** More sample data *)

(** A server with two sessions, and one with none. *)
Definition two_sessions : list ListedSession :=
  [mkListed "dev" dev_session; mkListed "ops" (mkSession "$1" [])].

(** An outside world in which every call returns: a new window is numbered
    7 and has the steady pane attached, a split gives the busy pane, and
    [int] reads decimal numerals. *)
Definition obliging : External :=
  mkExternal
    (fun _ _ => Ok (mkWindow "7" [abc_pane]))
    (fun win => hd_error (panes win))
    (fun _ _ => Ok busy_pane)
    (fun _ _ _ => None)
    (fun _ => None)
    (fun _ => None)
    (fun s => match NilZero.int_of_string s with
              | Some i => Ok (Z.of_int i)
              | None => Raise "invalid literal for int() with base 10"
              end).

(** The same, but a new window comes without a pane. *)
Definition bare : External :=
  mkExternal
    (fun _ _ => Ok (mkWindow "7" []))
    (attached_pane obliging)
    (split_window_gives obliging)
    (send_keys_raises obliging)
    (kill_window_raises obliging)
    (kill_pane_raises obliging)
    (int_of obliging).

Definition dev_object : ManagerObject := mkObject dev true false.

Definition host0 : host := mkHost world0 [].

(** * Properties *)

(** ** Comparisons *)

Lemma lt_true_iff x y : Py.lt x y = true <-> x < y.
Proof.
  unfold Py.lt. rewrite negb_true_iff.
  split; intro H.
  - apply Qnot_le_lt. intro L. apply Qle_bool_iff in L. congruence.
  - destruct (Qle_bool y x) eqn:E; trivial.
    apply Qle_bool_iff in E. apply Qle_not_lt in E. contradiction.
Qed.

Lemma lt_false_iff x y : Py.lt x y = false <-> y <= x.
Proof.
  unfold Py.lt. rewrite negb_false_iff. apply Qle_bool_iff.
Qed.

Lemma ge_true_iff x y : Py.ge x y = true <-> y <= x.
Proof. apply Qle_bool_iff. Qed.

Lemma ge_false_iff x y : Py.ge x y = false <-> x < y.
Proof.
  unfold Py.ge. split; intro H.
  - apply Qnot_le_lt. intro L. apply Qle_bool_iff in L. congruence.
  - destruct (Qle_bool y x) eqn:E; trivial.
    apply Qle_bool_iff in E. apply Qle_not_lt in E. contradiction.
Qed.

Lemma ne_true_iff a b : Py.ne a b = true <-> a <> b.
Proof.
  unfold Py.ne. rewrite negb_true_iff. apply String.eqb_neq.
Qed.

Lemma ne_false_iff a b : Py.ne a b = false <-> a = b.
Proof.
  unfold Py.ne. rewrite negb_false_iff. apply String.eqb_eq.
Qed.

Lemma times_0 d : times 0 d == 0.
Proof. unfold times. simpl. ring. Qed.

Lemma times_S n d : times (S n) d == times n d + d.
Proof.
  unfold times. rewrite Nat2Z.inj_succ. unfold Z.succ.
  rewrite inject_Z_plus. ring.
Qed.

Lemma times_nonneg n d : 0 <= d -> 0 <= times n d.
Proof.
  intro H. induction n.
  - rewrite times_0. apply Qle_refl.
  - rewrite times_S. lra.
Qed.


(** ** Lengths of time *)

Lemma seconds_nonneg d : 0 <= seconds d.
Proof. unfold seconds, Qle. simpl. lia. Qed.

Lemma seconds_instant : seconds instant == 0.
Proof. reflexivity. Qed.

Lemma sleep_cases d :
  (0 <= d /\ d <= Py.sleep_max /\ Py.sleep_refuses d = None) \/
  ((d < 0 \/ Py.sleep_max < d) /\ exists msg, Py.sleep_refuses d = Some msg).
Proof.
  unfold Py.sleep_refuses.
  destruct (Py.lt d 0) eqn:H0.
  - apply lt_true_iff in H0. right. split; [now left|now eexists].
  - apply lt_false_iff in H0.
    destruct (Py.lt Py.sleep_max d) eqn:H1.
    + apply lt_true_iff in H1. right. split; [now right|now eexists].
    + apply lt_false_iff in H1. now left.
Qed.





(** Each pass takes a poll interval at least. *)
Lemma poll_start_covers p c d k : 0 <= d -> times k d <= poll_start p c d k.
Proof.
  intro H. induction k as [|k IH].
  - rewrite times_0. apply Qle_refl.
  - rewrite times_S. simpl.
    pose proof (seconds_nonneg (took p (c + k))). lra.
Qed.

(** ** One pass through the loop, case by case *)

Section LoopFacts.

Variable self : TmuxManager.
Variables window_index pane_index : Z.
Variables timeout quiet_for poll_interval : Q.
Variable target_pane : Pane.

Local Abbreviation iter := (loop_iter self window_index pane_index
                            timeout quiet_for poll_interval target_pane).
Local Abbreviation loop := (wait_loop self window_index pane_index
                            timeout quiet_for poll_interval target_pane).
Local Abbreviation success e := (WaitSuccess e window_index pane_index
                                   (session_name self)).
Local Abbreviation timed_out e := (WaitTimeout e timeout window_index pane_index
                                     (session_name self)).
Local Abbreviation captured w := (fetched target_pane true w).
Local Abbreviation time_of w := (seconds (took target_pane (fetch_calls w))).

Lemma iter_cases st w :
  iter_case self window_index pane_index timeout quiet_for poll_interval
            target_pane st w.
Proof.
  destruct (Py.lt (clock w - start_time st) timeout) eqn:Ht.
  2:{ apply pass_timeout.
      - now apply lt_false_iff.
      - unfold loop_iter, bind, time_time. now rewrite Ht. }
  pose proof (proj1 (lt_true_iff _ _) Ht) as Ht'.
  destruct (screen target_pane (fetch_calls w)) as [s|msg] eqn:Hs.
  2:{ apply pass_raises with (msg := msg); trivial.
      unfold loop_iter, loop_body, bind, time_time, pane_capture_pane.
      now rewrite Ht, Hs. }
  destruct (sleep_cases poll_interval) as [(P0 & P1 & Hp)|(P & msg & Hp)];
    (destruct (Py.ne (normalize s) (last_content st)) eqn:Hn;
     [ pose proof (proj1 (ne_true_iff _ _) Hn) as Hn'
     | pose proof (proj1 (ne_false_iff _ _) Hn) as Hn';
       destruct (Py.ge (clock (captured w) - last_change_time st) quiet_for)
         eqn:Hq;
       [ pose proof (proj1 (ge_true_iff _ _) Hq) as Hq'
       | pose proof (proj1 (ge_false_iff _ _) Hq) as Hq' ] ]).
  - apply pass_change with (s := s); trivial.
    unfold loop_iter, loop_body, bind, time_time, pane_capture_pane,
      time_sleep, ret.
    rewrite Ht, Hs, Hn. simpl. now rewrite Hp.
  - apply pass_idle with (s := s); trivial.
    unfold loop_iter, loop_body, bind, time_time, pane_capture_pane, ret.
    rewrite Ht, Hs, Hn. simpl in *. now rewrite Hq.
  - apply pass_same with (s := s); trivial.
    unfold loop_iter, loop_body, bind, time_time, pane_capture_pane,
      time_sleep, ret.
    rewrite Ht, Hs, Hn. simpl in *. rewrite Hq. now rewrite Hp.
  - apply pass_change_bad_sleep with (s := s) (msg := msg); trivial.
    unfold loop_iter, loop_body, bind, time_time, pane_capture_pane,
      time_sleep, ret.
    rewrite Ht, Hs, Hn. simpl. now rewrite Hp.
  - apply pass_idle with (s := s); trivial.
    unfold loop_iter, loop_body, bind, time_time, pane_capture_pane, ret.
    rewrite Ht, Hs, Hn. simpl in *. now rewrite Hq.
  - apply pass_same_bad_sleep with (s := s) (msg := msg); trivial.
    unfold loop_iter, loop_body, bind, time_time, pane_capture_pane,
      time_sleep, ret.
    rewrite Ht, Hs, Hn. simpl in *. rewrite Hq. now rewrite Hp.
Qed.

Lemma loop_S fuel st w :
  loop (S fuel) st w =
  match iter st w with
  | (Ok (Return r), w') => (Ok (Some r), w')
  | (Ok (Continue st'), w') => loop fuel st' w'
  | (Raise msg, w') => (Raise msg, w')
  end.
Proof.
  simpl. unfold bind. destruct (iter st w) as [[[st'|r]|msg] w']; reflexivity.
Qed.

(** ** The loop heads of a run *)

Local Abbreviation steps := (step self window_index pane_index
                                 timeout quiet_for poll_interval target_pane).
Local Abbreviation reached := (reaches self window_index pane_index
                                 timeout quiet_for poll_interval target_pane).

(** The state the body leaves when it does not return: the old one, or the
    old one with the new text and the present as the time of change. *)
Lemma body_continues st w st' w' :
  loop_body self window_index pane_index quiet_for target_pane st w =
  (Ok (Continue st'), w') ->
  w' = captured w /\
  (st' = st \/
   (start_time st' = start_time st /\ last_change_time st' = clock w' /\
    last_content st' <> last_content st)).
Proof.
  unfold loop_body, bind, pane_capture_pane, time_time, ret.
  destruct (screen target_pane (fetch_calls w)) as [s|msg]; [|discriminate].
  destruct (Py.ne _ _) eqn:Hn; simpl.
  - intro H. inversion H; subst. split; trivial. right. simpl.
    apply ne_true_iff in Hn. now repeat split.
  - destruct (Py.ge _ _); intro H; inversion H; subst. split; trivial.
    now left.
Qed.

(** What a pass that comes back to the test has done. *)
Lemma step_cases w st w' st' :
  steps w st w' st' ->
  clock w - start_time st < timeout /\
  0 <= poll_interval /\ poll_interval <= Py.sleep_max /\
  w' = slept poll_interval (captured w) /\
  exists s, screen target_pane (fetch_calls w) = Returns s /\
    ((normalize s <> last_content st /\
      st' = mkIdle (start_time st) (normalize s) (clock (captured w))) \/
     (normalize s = last_content st /\
      clock (captured w) - last_change_time st < quiet_for /\ st' = st)).
Proof.
  unfold step. intro H.
  destruct (iter_cases st w)
    as [? E|? ? ? E|s ? ? ? ? ? E|? ? ? ? ? ? ? E
        |? ? ? ? ? E|s ? ? ? ? ? ? E|? ? ? ? ? ? ? ? E];
    rewrite E in H; inversion H; subst; clear H.
  - repeat split; trivial. exists s. split; trivial. left. now split.
  - repeat split; trivial. exists s. split; trivial. right. now repeat split.
Qed.

Lemma reaches_first w st w1 st1 w2 st2 :
  steps w st w1 st1 -> reached w1 st1 w2 st2 -> reached w st w2 st2.
Proof.
  intros S1 R. induction R.
  - eapply reaches_step; [apply reaches_here | exact S1].
  - eapply reaches_step; eauto.
Qed.

(** A run that returns does so in a pass started at a loop head it reaches;
    so does a run that raises. *)
Lemma loop_returns fuel : forall st w r w',
  loop fuel st w = (Ok (Some r), w') ->
  exists wl stl, reached w st wl stl /\ iter stl wl = (Ok (Return r), w').
Proof.
  induction fuel as [|fuel IH]; intros st w r w' H.
  - discriminate H.
  - rewrite loop_S in H.
    destruct (iter st w) as [[[st1|r1]|msg] w1] eqn:E.
    + destruct (IH _ _ _ _ H) as (wl & stl & R & F).
      exists wl, stl. split; trivial. eapply reaches_first; eauto.
    + inversion H; subst. exists w, st. split; trivial. apply reaches_here.
    + discriminate H.
Qed.

Lemma loop_raises fuel : forall st w msg w',
  loop fuel st w = (Raise msg, w') ->
  exists wl stl, reached w st wl stl /\ iter stl wl = (Raise msg, w').
Proof.
  induction fuel as [|fuel IH]; intros st w msg w' H.
  - discriminate H.
  - rewrite loop_S in H.
    destruct (iter st w) as [[[st1|r1]|msg1] w1] eqn:E.
    + destruct (IH _ _ _ _ H) as (wl & stl & R & F).
      exists wl, stl. split; trivial. eapply reaches_first; eauto.
    + discriminate H.
    + inversion H; subst. exists w, st. split; trivial. apply reaches_here.
Qed.

Lemma well_timed_initial w : well_timed w (initial_state w).
Proof. split; apply Qle_refl. Qed.

Lemma step_well_timed w st w' st' :
  steps w st w' st' -> well_timed w st ->
  well_timed w' st' /\ start_time st' = start_time st /\
  last_change_time st <= last_change_time st'.
Proof.
  intros S1 [I1 I2].
  pose proof (seconds_nonneg (took target_pane (fetch_calls w))) as Hn.
  destruct (step_cases S1)
    as (Ht & Hp & _ & -> & s & Hs & [[Hne ->]|(Hne & Hq & ->)]);
    unfold well_timed; simpl; repeat split; trivial; try lra.
Qed.

Lemma reaches_well_timed w st wl stl :
  reached w st wl stl -> well_timed w st ->
  well_timed wl stl /\ start_time stl = start_time st.
Proof.
  intros R I. induction R as [|w1 st1 w2 st2 R IH S1].
  - now split.
  - destruct IH as [I1 E1].
    destruct (step_well_timed S1 I1) as (I2 & E2 & _).
    split; trivial. congruence.
Qed.

(** How a pass returns, and how it raises. *)
Lemma return_cases st w r w' :
  iter st w = (Ok (Return r), w') ->
  (timeout <= clock w - start_time st /\
   r = timed_out (clock w - start_time st) /\ w' = w) \/
  (clock w - start_time st < timeout /\
   quiet_for <= clock w' - last_change_time st /\
   r = success (clock w' - start_time st) /\ w' = captured w /\
   exists s, screen target_pane (fetch_calls w) = Returns s /\
             normalize s = last_content st).
Proof.
  intro H.
  destruct (iter_cases st w)
    as [? E|? ? ? E|s ? ? ? ? ? E|? ? ? ? ? ? ? E
        |s ? ? ? ? E|s ? ? ? ? ? ? E|? ? ? ? ? ? ? ? E];
    rewrite E in H; inversion H; subst; clear H.
  - left. now repeat split.
  - right. repeat split; trivial. now exists s.
Qed.

Lemma raise_cases st w msg w' :
  iter st w = (Raise msg, w') ->
  clock w - start_time st < timeout /\
  ((screen target_pane (fetch_calls w) = Raises msg /\
    w' = fetched target_pane false w) \/
   ((poll_interval < 0 \/ Py.sleep_max < poll_interval) /\
    Py.sleep_refuses poll_interval = Some msg /\ w' = captured w /\
    exists s, screen target_pane (fetch_calls w) = Returns s)).
Proof.
  intro H.
  destruct (iter_cases st w)
    as [? E|? ? ? E|s ? ? ? ? ? E|s ? ? ? ? ? ? E
        |s ? ? ? ? E|s ? ? ? ? ? ? E|s ? ? ? ? ? ? ? E];
    rewrite E in H; inversion H; subst; clear H; split; trivial.
  - now left.
  - right. repeat split; trivial. now exists s.
  - right. repeat split; trivial. now exists s.
Qed.

Lemma reaches_start w st wl stl :
  reached w st wl stl -> start_time stl = start_time st.
Proof.
  intro R. induction R as [|w1 st1 w2 st2 R IH S1]; trivial.
  destruct (step_cases S1)
    as (_ & _ & _ & _ & s & _ & [[_ ->]|(_ & _ & ->)]);
    simpl; congruence.
Qed.

(** After [k] passes the pane has been captured [k] times, every capture
    returned, and the clock has advanced by the time of these captures and
    [k] poll intervals; the last pass started before the timeout and left
    the text it captured in [last_content]. *)
Lemma reaches_count w st wl stl :
  reached w st wl stl ->
  exists k,
    fetch_calls wl = (fetch_calls w + k)%nat /\
    fetch_returns wl = (fetch_returns w + k)%nat /\
    lookups wl = lookups w /\
    clock wl ==
    clock w + poll_start target_pane (fetch_calls w) poll_interval k /\
    (forall j, (j < k)%nat ->
       exists s, screen target_pane (fetch_calls w + j) = Returns s) /\
    match k with
    | O => wl = w /\ stl = st
    | S k' =>
        0 <= poll_interval /\ poll_interval <= Py.sleep_max /\
        clock wl - poll_interval
          - seconds (took target_pane (fetch_calls w + k'))
          - start_time st < timeout /\
        blob target_pane (fetch_calls w + k') = Some (last_content stl)
    end.
Proof.
  intro R. induction R as [|w1 st1 w2 st2 R IH S1].
  - exists 0%nat. repeat split; auto.
    + simpl. ring.
    + intros j Hj. lia.
  - destruct IH as (k & C1 & C2 & C3 & C4 & C5 & _).
    destruct (step_cases S1) as (Ht & Hp & Hm & -> & s & Hs & Hst).
    exists (S k). simpl. rewrite C1. repeat split; try lia; trivial.
    + rewrite C4. ring.
    + intros j Hj. destruct (Nat.eq_dec j k) as [->|Hne].
      * exists s. now rewrite <- C1.
      * apply C5. lia.
    + rewrite <- (reaches_start R). lra.
    + unfold blob. rewrite <- C1, Hs.
      destruct Hst as [[_ ->]|(E & _ & ->)]; simpl; congruence.
Qed.

(** A run cut short has only made passes that came back to the test. *)
Lemma loop_cut fuel : forall st w w',
  loop fuel st w = (Ok None, w') -> exists stl, reached w st w' stl.
Proof.
  induction fuel as [|fuel IH]; intros st w w' H.
  - inversion H; subst. exists st. apply reaches_here.
  - rewrite loop_S in H.
    destruct (iter st w) as [[[st1|r1]|msg] w1] eqn:E; try discriminate H.
    destruct (IH _ _ _ H) as (stl & R).
    exists stl. eapply reaches_first; eauto.
Qed.

(** More fuel does not change what a finished run gave. *)
Lemma loop_more_fuel fuel : forall st w out w',
  loop fuel st w = (out, w') -> out <> Ok None ->
  forall fuel', (fuel <= fuel')%nat -> loop fuel' st w = (out, w').
Proof.
  induction fuel as [|fuel IH]; intros st w out w' H Hout fuel' Hle.
  - inversion H; subst. now contradiction Hout.
  - destruct fuel' as [|fuel']; [lia|].
    rewrite loop_S in *.
    destruct (iter st w) as [[[st1|r1]|msg] w1]; trivial.
    apply IH; trivial. lia.
Qed.

(** If [n] poll intervals cover what is left of the timeout, the loop is
    over within [n + 1] evaluations of its test and [n] captures: a pass
    takes a poll interval at least. *)
Lemma loop_terminates n : forall st w,
  0 < poll_interval ->
  timeout - (clock w - start_time st) <= times n poll_interval ->
  exists out w',
    loop (S n) st w = (out, w') /\ out <> Ok None /\
    (fetch_calls w' <= fetch_calls w + n)%nat.
Proof.
  induction n as [|n IH]; intros st w Hp Hn; rewrite loop_S;
    pose proof (seconds_nonneg (took target_pane (fetch_calls w))) as Hs.
  - rewrite times_0 in Hn.
    destruct (iter_cases st w)
      as [? E|? ? ? E|s ? ? ? ? ? E|s ? ? ? ? ? ? E
          |s ? ? ? ? E|s ? ? ? ? ? ? E|s ? ? ? ? ? ? ? E];
      try lra.
    rewrite E. eexists _, _. split; [reflexivity|]. split; [discriminate|lia].
  - rewrite times_S in Hn.
    destruct (iter_cases st w)
      as [? E|? ? ? E|s ? ? ? ? ? E|s ? ? ? ? ? ? E
          |s ? ? ? ? E|s ? ? ? ? ? ? E|s ? ? ? ? ? ? ? E];
      rewrite E;
      try (eexists _, _; split; [reflexivity|];
           split; [discriminate|simpl; lia]).
    + destruct (IH (mkIdle (start_time st) (normalize s)
                           (clock (captured w)))
                   (slept poll_interval (captured w)) Hp)
        as (out & w' & L & Hout & Hc).
      { simpl. lra. }
      exists out, w'. repeat split; trivial. simpl in Hc. lia.
    + destruct (IH st (slept poll_interval (captured w)) Hp)
        as (out & w' & L & Hout & Hc).
      { simpl. lra. }
      exists out, w'. repeat split; trivial. simpl in Hc. lia.
Qed.

Lemma detect_loop fuel w :
  detect self window_index pane_index timeout quiet_for poll_interval
         target_pane fuel w = loop fuel (initial_state w) w.
Proof. reflexivity. Qed.

(** ** A stable pane is found idle *)





(** ** What a finished run can have given *)

(** A returned response is a timeout, at or after the timeout, or a success
    at least a quiet period after the start; the success comes after the
    timeout by less than the time its last capture took, the loop test
    having passed before that capture began. *)
Lemma loop_outcome fuel st w r w' :
  well_timed w st ->
  loop fuel st w = (Ok (Some r), w') ->
  (exists e, r = timed_out e /\ timeout <= e) \/
  (exists e, r = success e /\ quiet_for <= e /\
             e < timeout + seconds (took target_pane (fetch_calls w' - 1))).
Proof.
  intros I H.
  destruct (loop_returns _ _ _ H) as (wl & stl & R & F).
  destruct (reaches_well_timed R I) as [[I1 I2] E].
  destruct (return_cases _ _ F) as [(Ht & -> & _)|(Ht & Hq & -> & -> & _)].
  - left. eexists. split; [reflexivity|lra].
  - right. eexists. split; [reflexivity|]. simpl in *.
    rewrite Nat.sub_0_r. split; lra.
Qed.

(** A run over captures that all return, with a poll interval the sleep
    takes, does not raise. *)
Lemma loop_no_raise fuel st w msg w' :
  0 <= poll_interval -> poll_interval <= Py.sleep_max ->
  (forall n, blob target_pane n <> None) ->
  loop fuel st w = (Raise msg, w') -> False.
Proof.
  intros Hp Hm Hb H.
  destruct (loop_raises _ _ _ H) as (wl & stl & R & F).
  destruct (raise_cases _ _ F) as (_ & [[Hr _]|(Hn & _)]).
  - apply (Hb (fetch_calls wl)). unfold blob. now rewrite Hr.
  - lra.
Qed.

(** ** Timeouts, successes and failures of a run from the initial state *)



(** A success comes at least a quiet period after the start, and, when the
    first text captured is not empty, not at the first poll. *)
Lemma success_elapsed fuel w e a b c w' :
  loop fuel (initial_state w) w = (Ok (Some (WaitSuccess e a b c)), w') ->
  quiet_for <= e /\
  (forall s, screen target_pane (fetch_calls w) = Returns s ->
             normalize s <> "" ->
             poll_interval <= e /\ (fetch_calls w + 2 <= fetch_calls w')%nat).
Proof.
  intro H.
  destruct (loop_returns _ _ _ H) as (wl & stl & R & F).
  destruct (reaches_well_timed R (well_timed_initial w)) as [[I1 I2] E].
  simpl in E.
  destruct (reaches_count R) as (k & Hc & _ & _ & Hclk & _ & Hk).
  destruct (return_cases _ _ F)
    as [(_ & Hr & _)|(Ht & Hqq & Hr & -> & s & Hs & Hn)]; [discriminate Hr|].
  inversion Hr; subst e; clear Hr. rewrite E in *. simpl in *.
  split; [lra|].
  intros s0 Hs0 Hne.
  destruct k as [|k].
  - destruct Hk as [-> ->]. simpl in Hn. congruence.
  - destruct Hk as (Hp & _ & _).
    pose proof (poll_start_covers target_pane (fetch_calls w) (S k) Hp) as Hcov.
    pose proof (times_nonneg k Hp). rewrite times_S in Hcov.
    pose proof (seconds_nonneg (took target_pane (fetch_calls wl))).
    split; [simpl; lra|]. simpl. lia.
Qed.

(** A capture that raises ends the run there: the run raises with the
    capture's message, and no capture follows. *)
Lemma failed_fetch_ends_run fuel st w k msg out w' :
  loop fuel st w = (out, w') ->
  screen target_pane (fetch_calls w + k) = Raises msg ->
  (fetch_calls w + k < fetch_calls w')%nat ->
  out = Raise msg /\
  fetch_calls w' = (fetch_calls w + k + 1)%nat /\
  fetch_returns w' = (fetch_returns w + k)%nat /\
  lookups w' = lookups w.
Proof.
  intros H Hr Hlt.
  assert (clash : forall n wl, fetch_calls wl = (fetch_calls w + n)%nat ->
            (forall j, (j < n)%nat ->
               exists s, screen target_pane (fetch_calls w + j) = Returns s) ->
            (k < n)%nat -> False).
  { intros n wl _ Hall Hkn. destruct (Hall k Hkn) as (s & Hs). congruence. }
  destruct out as [[r|]|m].
  - exfalso.
    destruct (loop_returns _ _ _ H) as (wl & stl & R & F).
    destruct (reaches_count R) as (n & Hc & _ & _ & _ & Hall & _).
    destruct (return_cases _ _ F)
      as [(_ & _ & ->)|(_ & _ & _ & -> & s & Hs & _)].
    + apply (clash n wl Hc Hall). lia.
    + simpl in Hlt. destruct (Nat.eq_dec k n) as [->|Hne].
      * rewrite Hc in Hs. congruence.
      * apply (clash n wl Hc Hall). lia.
  - exfalso.
    destruct (loop_cut _ _ _ H) as (stl & R).
    destruct (reaches_count R) as (n & Hc & _ & _ & _ & Hall & _).
    apply (clash n w' Hc Hall). lia.
  - destruct (loop_raises _ _ _ H) as (wl & stl & R & F).
    destruct (reaches_count R) as (n & Hc & Hret & Hl & _ & Hall & _).
    destruct (raise_cases _ _ F)
      as (_ & [[Hs ->]|(_ & _ & -> & s & Hs)]); simpl in *.
    + destruct (Nat.lt_trichotomy k n) as [Hkn|[->|Hkn]].
      * exfalso. apply (clash n wl Hc Hall Hkn).
      * rewrite Hc in Hs. repeat split; try lia. congruence.
      * exfalso. lia.
    + exfalso. destruct (Nat.eq_dec k n) as [->|Hne].
      * rewrite Hc in Hs. congruence.
      * apply (clash n wl Hc Hall). lia.
Qed.

End LoopFacts.
(** ** From the loop to [wait_idle] *)

Lemma find_resolved self wi pi p w :
  resolves self wi pi p ->
  exists win,
    _find_pane_by_index self wi pi w = (Ok (Some win, Some p, None), looked w).
Proof.
  intros (s & win & Hs & Hw & Hp). exists win.
  unfold _find_pane_by_index, session, bind, session_find_where, ret.
  now rewrite Hs, Hw, Hp.
Qed.

Lemma wait_idle_resolved fuel self wi pi timeout quiet_for poll_interval p w :
  resolves self wi pi p ->
  wait_idle fuel self wi pi timeout quiet_for poll_interval w =
  match wait_loop self wi pi timeout quiet_for poll_interval p fuel
                  (initial_state (looked w)) (looked w) with
  | (Ok out, w') => (out, w')
  | (Raise msg, w') => (Some (Error msg "WAIT_IDLE_FAILED"), w')
  end.
Proof.
  intro R. destruct (find_resolved w R) as (win & F).
  unfold wait_idle, try_except, bind. rewrite F.
  now rewrite detect_loop.
Qed.

Lemma ceiling_covers t p :
  0 < p -> t <= times (Z.to_nat (Qceiling (t / p))) p.
Proof.
  intro Hp. unfold times.
  assert (E : t == (t / p) * p) by (field; lra).
  rewrite E at 1. apply Qmult_le_compat_r; [|lra].
  apply Qle_trans with (inject_Z (Qceiling (t / p))).
  - apply Qle_ceiling.
  - rewrite <- Zle_Qle. lia.
Qed.

(** ** C7 *)

(** C7: at every loop head a run of [wait_idle] passes through,
    [start_time] is the time the wait began and
    [last_change_time >= start_time]; the state the body leaves (before the
    sleep) satisfies the same, and [last_change_time] never decreases from
    one loop head to the next.  ([loop_returns], [loop_raises] and
    [loop_cut] show that a run only passes through such loop heads.) *)
Theorem last_change_time_moves_forward
    self wi pi timeout quiet_for poll_interval p w0 w st :
  reaches self wi pi timeout quiet_for poll_interval p
          w0 (initial_state w0) w st ->
  start_time st = clock w0 /\
  start_time st <= last_change_time st /\
  (forall st' w',
      loop_body self wi pi quiet_for p st w = (Ok (Continue st'), w') ->
      start_time st' = clock w0 /\
      start_time st' <= last_change_time st' /\
      last_change_time st <= last_change_time st') /\
  (forall w' st',
      step self wi pi timeout quiet_for poll_interval p w st w' st' ->
      start_time st' <= last_change_time st' /\
      last_change_time st <= last_change_time st').
Proof.
  intro R.
  destruct (reaches_well_timed R (well_timed_initial w0)) as [[I1 I2] E].
  simpl in E. split; [exact E|]. split; [exact I1|]. split.
  - intros st' w' B.
    destruct (body_continues _ _ _ _ _ _ _ B) as (-> & [->|(E1 & E2 & _)]).
    + split; [exact E|]. split; [exact I1|apply Qle_refl].
    + pose proof (seconds_nonneg (took p (fetch_calls w))).
      rewrite E1, E2. simpl. split; [exact E|]. split; lra.
  - intros w' st' S1.
    destruct (step_well_timed S1 (conj I1 I2)) as ([J1 _] & _ & J).
    now split.
Qed.

(** ** C3 *)

(** C3, as stated, fails: with [timeout = 2] and [quiet_for = 3], on a pane
    that shows nothing and takes 4 s to capture, the first pass begins
    within the timeout, and when its capture is over the pane has been
    quiet for 4 s: [wait_idle] returns a success. *)
Lemma success_with_quiet_for_above_timeout :
  exists e w',
    wait_idle 5 slow 1 0 2 3 (1 # 2) world0 =
    (Some (WaitSuccess e 1 0 "slow"), w') /\
    2 < 3 /\ e == 4.
Proof.
  eexists _, _. split; [vm_compute; reflexivity|]. now split.
Qed.

(** C3, amended: when [quiet_for >= timeout + L], where no capture takes
    longer than [L], no run of [wait_idle] gives a success; and over every
    snapshot sequence (all captures return), with a positive poll interval
    that the sleep takes, [wait_idle] gives the timeout response. *)
Theorem quiet_longer_than_timeout_times_out
    self wi pi timeout quiet_for poll_interval p L :
  resolves self wi pi p ->
  (forall n, seconds (took p n) <= L) ->
  timeout + L <= quiet_for ->
  (forall fuel w r w',
      wait_idle fuel self wi pi timeout quiet_for poll_interval w = (Some r, w') ->
      status r <> "success") /\
  (0 < poll_interval -> poll_interval <= Py.sleep_max ->
   (forall n, blob p n <> None) ->
   forall w, exists e w',
     forall fuel, (Z.to_nat (Qceiling (timeout / poll_interval)) < fuel)%nat ->
       wait_idle fuel self wi pi timeout quiet_for poll_interval w =
       (Some (WaitTimeout e timeout wi pi (session_name self)), w')).
Proof.
  intros R HL Hlt. split.
  - intros fuel w r w'. rewrite (wait_idle_resolved _ _ _ _ _ R).
    destruct (wait_loop _ _ _ _ _ _ _ _ _ _) as [[[r1|]|msg] w1] eqn:L1;
      intro H; inversion H; subst; clear H; try discriminate.
    apply loop_outcome in L1; [|apply well_timed_initial].
    destruct L1 as [(e & -> & _)|(e & -> & Hq & Ht)]; [discriminate|].
    pose proof (HL (fetch_calls w' - 1)%nat). lra.
  - intros Hp Hm Hb w.
    set (n := Z.to_nat (Qceiling (timeout / poll_interval))).
    destruct (@loop_terminates self wi pi timeout quiet_for poll_interval p n
                (initial_state (looked w)) (looked w) Hp)
      as (out & w' & L1 & Hout & _).
    { simpl. pose proof (ceiling_covers timeout Hp) as C. fold n in C. lra. }
    destruct out as [[r|]|msg].
    + pose proof L1 as O.
      apply loop_outcome in O; [|apply well_timed_initial].
      destruct O as [(e & -> & _)|(e & -> & Hq & Ht)].
      * exists e, w'. intros fuel Hf.
        rewrite (wait_idle_resolved _ _ _ _ _ R).
        apply loop_more_fuel with (fuel' := fuel) in L1; [|exact Hout|lia].
        now rewrite L1.
      * pose proof (HL (fetch_calls w' - 1)%nat). lra.
    + now contradiction Hout.
    + exfalso. apply loop_no_raise in L1; trivial. lra.
Qed.

(** ** C1 *)



(** ** C2 *)



(** ** C9 *)

(** C9: with a positive [poll_interval] and a positive [timeout] the loop
    of [wait_idle] comes to an end within
    [ceil(timeout / poll_interval) + 1] evaluations of its test, having
    captured the pane at most [ceil(timeout / poll_interval)] times, and
    [wait_idle] returns a success, a timeout or an error. *)
Theorem wait_idle_terminates
    self wi pi timeout quiet_for poll_interval p w :
  resolves self wi pi p ->
  0 < poll_interval -> 0 < timeout ->
  exists r w',
    wait_outcome r /\
    (fetch_calls w' <=
     fetch_calls w + Z.to_nat (Qceiling (timeout / poll_interval)))%nat /\
    forall fuel,
      (Z.to_nat (Qceiling (timeout / poll_interval)) + 1 <= fuel)%nat ->
      wait_idle fuel self wi pi timeout quiet_for poll_interval w = (Some r, w').
Proof.
  intros R Hp Ht.
  set (n := Z.to_nat (Qceiling (timeout / poll_interval))).
  destruct (@loop_terminates self wi pi timeout quiet_for poll_interval p n
              (initial_state (looked w)) (looked w) Hp)
    as (out & w' & L & Hout & Hc).
  { simpl. pose proof (ceiling_covers timeout Hp) as C. fold n in C. lra. }
  assert (More : forall fuel, (n + 1 <= fuel)%nat ->
            wait_loop self wi pi timeout quiet_for poll_interval p fuel
                      (initial_state (looked w)) (looked w) = (out, w')).
  { intros fuel Hf. eapply loop_more_fuel; eauto. lia. }
  destruct out as [[r|]|msg].
  - exists r, w'. repeat split; trivial.
    + apply loop_outcome in L; [|apply well_timed_initial].
      destruct L as [(e & -> & _)|(e & -> & _)]; exact I.
    + intros fuel Hf. rewrite (wait_idle_resolved _ _ _ _ _ R).
      now rewrite (More fuel Hf).
  - now contradiction Hout.
  - exists (Error msg "WAIT_IDLE_FAILED"), w'. repeat split; trivial.
    intros fuel Hf. rewrite (wait_idle_resolved _ _ _ _ _ R).
    now rewrite (More fuel Hf).
Qed.

(** ** C4 *)

(** C4: if the capture of poll [k] (counted from 0) is made and raises,
    [wait_idle] returns the error response, neither a success nor a
    timeout, that carries the capture's message; that capture is the last
    one made, and the [k] captures before it are the only ones that
    returned.  For [k = 2], the third poll, that is two completed
    captures. *)
Theorem failed_fetch_aborts_wait
    self wi pi timeout quiet_for poll_interval p fuel w k msg out w' :
  resolves self wi pi p ->
  wait_idle fuel self wi pi timeout quiet_for poll_interval w = (out, w') ->
  screen p (fetch_calls w + k) = Raises msg ->
  (fetch_calls w + k < fetch_calls w')%nat ->
  out = Some (Error msg "WAIT_IDLE_FAILED") /\
  fetch_calls w' = (fetch_calls w + k + 1)%nat /\
  fetch_returns w' = (fetch_returns w + k)%nat.
Proof.
  intros R H Hr Hlt.
  rewrite (wait_idle_resolved _ _ _ _ _ R) in H.
  destruct (wait_loop _ _ _ _ _ _ _ _ _ _) as [o w1] eqn:L.
  assert (E : w1 = w') by (destruct o; now inversion H). subst w1.
  apply failed_fetch_ends_run with (k := k) (msg := msg) in L; trivial.
  destruct L as (-> & Hc & Hret & _).
  inversion H; subst. repeat split; trivial.
Qed.

(** ** C5 *)

(** C5, as stated, fails: with [timeout = 5], [quiet_for = 1],
    [poll_interval = 0.2] and a pane that shows [abc] at every poll, the
    success comes after exactly [quiet_for], not [quiet_for] plus a poll
    interval. *)
Lemma success_after_exactly_quiet_for :
  exists e w',
    wait_idle 10 dev 1 0 5 1 (1 # 5) world0 =
    (Some (WaitSuccess e 1 0 "dev"), w') /\
    e == 1 /\ ~ (1 + (1 # 5) <= e).
Proof.
  eexists _, _. split; [vm_compute; reflexivity|].
  split; [reflexivity|]. intro H. vm_compute in H. now apply H.
Qed.

(** C5, amended: a success has an elapsed time of at least [quiet_for];
    and when the first text captured is not empty, so that the first poll
    counts as a change, the success comes at a later poll: the elapsed time
    is at least one [poll_interval] too, and the pane has been captured at
    least twice. *)
Theorem success_takes_quiet_for_and_a_poll
    self wi pi timeout quiet_for poll_interval p fuel w e a b c w' :
  resolves self wi pi p ->
  wait_idle fuel self wi pi timeout quiet_for poll_interval w =
  (Some (WaitSuccess e a b c), w') ->
  quiet_for <= e /\
  (forall s, screen p (fetch_calls w) = Returns s -> normalize s <> "" ->
             poll_interval <= e /\ (fetch_calls w + 2 <= fetch_calls w')%nat).
Proof.
  intros R.
  rewrite (wait_idle_resolved _ _ _ _ _ R).
  destruct (wait_loop _ _ _ _ _ _ _ _ _ _) as [[[r1|]|msg] w1] eqn:L;
    intro H; inversion H; subst; clear H.
  apply success_elapsed in L. exact L.
Qed.

(** ** C6 *)

Lemma join_concatenated l : Py.join_lines l = concatenated_lines l.
Proof.
  unfold Py.join_lines.
  induction l as [|x [|y l] IH]; trivial.
  change (String.concat Py.newline (x :: y :: l))
    with (x ++ Py.newline ++ String.concat Py.newline (y :: l)).
  rewrite IH. reflexivity.
Qed.

(** The text the detector compares is the concatenated text. *)
Lemma normalize_concatenated s : normalize s = concatenated s.
Proof.
  destruct s as [[|x l]|]; trivial.
  unfold normalize, concatenated, lines_of. simpl Py.truthy. cbv iota.
  apply join_concatenated.
Qed.

Lemma loop_iter_same_text
    self self' wi pi timeout quiet_for poll_interval p p' st w :
  session_name self' = session_name self ->
  (forall n, same_capture (screen p n) (screen p' n) /\ took p n = took p' n) ->
  loop_iter self' wi pi timeout quiet_for poll_interval p' st w =
  loop_iter self wi pi timeout quiet_for poll_interval p st w.
Proof.
  intros Hn Hs. destruct (Hs (fetch_calls w)) as [Hc Ht].
  unfold loop_iter, loop_body, bind, pane_capture_pane, time_time, fetched.
  destruct (Py.lt _ _); [|now rewrite Hn].
  rewrite <- Ht.
  destruct (screen p (fetch_calls w)) as [s|m],
           (screen p' (fetch_calls w)) as [s'|m']; simpl in Hc;
    try contradiction.
  - rewrite <- !normalize_concatenated in Hc. now rewrite Hc, Hn.
  - now subst.
Qed.

Lemma wait_loop_same_text
    self self' wi pi timeout quiet_for poll_interval p p' fuel :
  session_name self' = session_name self ->
  (forall n, same_capture (screen p n) (screen p' n) /\ took p n = took p' n) ->
  forall st w,
    wait_loop self' wi pi timeout quiet_for poll_interval p' fuel st w =
    wait_loop self wi pi timeout quiet_for poll_interval p fuel st w.
Proof.
  intros Hn Hs. induction fuel as [|fuel IH]; intros st w; trivial.
  rewrite !loop_S.
  rewrite (@loop_iter_same_text self self' wi pi timeout quiet_for
             poll_interval p p' st w Hn Hs).
  destruct (loop_iter _ _ _ _ _ _ _ _ _) as [[[st1|r1]|msg] w1]; trivial.
Qed.

(** C6: the text the detector keeps of a snapshot is its concatenated text,
    the lines with a newline between one and the next, and the empty text
    for no lines and for [None]; a snapshot counts as unchanged (the
    detection state is kept, or the wait succeeds) exactly when its
    concatenated text is that of the snapshot before it; and [wait_idle]
    gives the same response and makes the same calls on two panes whose
    captures have the same concatenated texts and take the same time. *)
Theorem snapshots_compared_as_text
    self wi pi timeout quiet_for poll_interval p :
  resolves self wi pi p ->
  (forall s, normalize s = concatenated s) /\
  (normalize None = "" /\ normalize (Some []) = "") /\
  (forall a b st w,
      last_content st = normalize a ->
      screen p (fetch_calls w) = Returns b ->
      (concatenated b = concatenated a <->
       (fst (loop_body self wi pi quiet_for p st w) = Ok (Continue st) \/
        exists e,
          fst (loop_body self wi pi quiet_for p st w) =
          Ok (Return (WaitSuccess e wi pi (session_name self)))))) /\
  (forall self' p' fuel w,
      resolves self' wi pi p' ->
      session_name self' = session_name self ->
      (forall n, same_capture (screen p n) (screen p' n) /\
                 took p n = took p' n) ->
      wait_idle fuel self' wi pi timeout quiet_for poll_interval w =
      wait_idle fuel self wi pi timeout quiet_for poll_interval w).
Proof.
  intro R. split; [exact normalize_concatenated|].
  split; [now split|]. split.
  - intros a b st w Hl Hs. rewrite <- !normalize_concatenated.
    unfold loop_body, bind, pane_capture_pane, time_time, ret.
    rewrite Hs, Hl.
    destruct (Py.ne (normalize b) (normalize a)) eqn:Hn; simpl.
    + apply ne_true_iff in Hn. split; [contradiction|].
      intros [H|[e H]]; [|discriminate H].
      inversion H as [H1]. rewrite <- H1 in Hl. simpl in Hl. congruence.
    + apply ne_false_iff in Hn. split; [intros _|trivial].
      destruct (Py.ge _ _); [right; eexists; reflexivity|now left].
  - intros self' p' fuel w R' Hn Hs.
    rewrite (wait_idle_resolved _ _ _ _ _ R), (wait_idle_resolved _ _ _ _ _ R').
    now rewrite (@wait_loop_same_text self self' wi pi timeout quiet_for
                   poll_interval p p' fuel Hn Hs).
Qed.

(** ** C8 *)

(** C8: when the window, or the pane in it, is not found, [wait_idle]
    returns the not-found error whatever the fuel, the loop not being
    entered: one lookup has been made, no capture, and the clock has not
    moved. *)
Theorem unresolved_target_not_found
    fuel self wi pi timeout quiet_for poll_interval w :
  unresolved self wi pi ->
  exists msg w',
    wait_idle fuel self wi pi timeout quiet_for poll_interval w =
    (Some (Error msg "PANE_NOT_FOUND"), w') /\
    (msg = "Window " ++ Py.str wi ++ " not found" \/
     msg = "Pane " ++ Py.str pi ++ " not found in window " ++ Py.str wi) /\
    lookups w' = S (lookups w) /\
    fetch_calls w' = fetch_calls w /\
    fetch_returns w' = fetch_returns w /\
    clock w' = clock w.
Proof.
  intros (s & Hs & Hw).
  unfold wait_idle, try_except, bind, _find_pane_by_index, session, bind,
    session_find_where, ret.
  rewrite Hs.
  destruct (find_window s (Py.str wi)) as [win|].
  - rewrite Hw. eexists _, _. split; [reflexivity|].
    repeat split. now right.
  - eexists _, _. split; [reflexivity|].
    repeat split. now left.
Qed.

(** ** C10 *)

Lemma join_or_empty l :
  (if Py.truthy l then Py.join_lines l else "") = Py.join_lines l.
Proof. now destruct l. Qed.

Lemma slice_last {A} (l : list A) (n : Z) :
  (1 <= n)%Z -> (Py.len l > n)%Z ->
  Py.slice_from l (- n) = lastn (Z.to_nat n) l.
Proof.
  unfold Py.slice_from, Py.len, lastn. intros H1 H2.
  destruct (Z.ltb_spec (- n) 0); [|lia].
  f_equal. lia.
Qed.

(** C10: with [lines >= 1] and a capture that returns [n] lines,
    [capture_pane] returns the success response whose content is the last
    [min(n, lines)] lines joined by newlines and whose line count is
    [min(n, lines)]; a capture that returns [None] gives the empty content
    and the count 0. *)
Theorem capture_pane_last_lines self wi pi lines p w s :
  resolves self wi pi p ->
  (1 <= lines)%Z ->
  screen p (fetch_calls w) = Returns s ->
  let m := Z.min (Py.len (lines_of s)) lines in
  fst (capture_pane self wi pi lines w) =
  CaptureSuccess (Py.join_lines (lastn (Z.to_nat m) (lines_of s))) m
                 wi pi (session_name self) /\
  (s = None ->
   fst (capture_pane self wi pi lines w) =
   CaptureSuccess "" 0 wi pi (session_name self)).
Proof.
  intros R Hl Hs m.
  assert (G : fst (capture_pane self wi pi lines w) =
              CaptureSuccess (Py.join_lines (lastn (Z.to_nat m) (lines_of s)))
                             m wi pi (session_name self)).
  { destruct (find_resolved w R) as (win & F).
    unfold capture_pane, try_except, bind. rewrite F.
    unfold pane_capture_pane. simpl. rewrite Hs. unfold ret. simpl.
    rewrite join_or_empty. subst m.
    destruct (Z.gtb_spec (Py.len (lines_of s)) lines) as [Hgt|Hle].
    - rewrite Z.min_r by lia.
      rewrite slice_last by lia. f_equal.
      unfold Py.len, lastn in *. rewrite length_skipn. lia.
    - rewrite Z.min_l by lia. unfold Py.len, lastn.
      rewrite Nat2Z.id, Nat.sub_diag. reflexivity. }
  split; trivial.
  intros ->. rewrite G. subst m.
  replace (Z.min (Py.len (lines_of None)) lines) with 0%Z
    by (unfold Py.len; simpl; lia).
  reflexivity.
Qed.

(** ** The properties on the sample session *)

Lemma dev_resolves_abc : resolves dev 1 0 abc_pane.
Proof. exists dev_session, dev_window. now repeat split. Qed.

Lemma dev_resolves_busy : resolves dev 1 1 busy_pane.
Proof. exists dev_session, dev_window. now repeat split. Qed.

Lemma dev_resolves_flaky : resolves dev 1 2 flaky_pane.
Proof. exists dev_session, dev_window. now repeat split. Qed.

Lemma dev_resolves_log : resolves dev 1 3 log_pane.
Proof. exists dev_session, dev_window. now repeat split. Qed.

Lemma dev_resolves_none : resolves dev 1 4 none_pane.
Proof. exists dev_session, dev_window. now repeat split. Qed.

Lemma dev_blank_resolves : resolves dev_blank 1 4 blank_pane.
Proof. eexists _, dev_blank_window. now repeat split. Qed.

Lemma dev_window_2_unresolved : unresolved dev 2 0.
Proof. exists dev_session. now split. Qed.

Lemma slow_resolves_blank : resolves slow 1 0 slow_blank_pane.
Proof. exists slow_session, slow_window. now repeat split. Qed.


Lemma xs_grows k : xs (S k) <> xs k.
Proof.
  induction k as [|k IH]; simpl.
  - discriminate.
  - intro H. injection H as H. now apply IH.
Qed.

Lemma busy_pane_changes n : blob busy_pane (S n) <> blob busy_pane n.
Proof.
  unfold blob. simpl. intro H. injection H as H.
  unfold normalize, Py.join_lines in H. simpl in H.
  apply (@xs_grows n). simpl. exact H.
Qed.


(** Without a session the lookup raises and [wait_idle] reports the
    failure of the wait, with no lookup and no capture made. *)
Lemma wait_idle_without_session
    fuel self wi pi timeout quiet_for poll_interval w :
  _session self = None ->
  wait_idle fuel self wi pi timeout quiet_for poll_interval w =
  (Some (Error
     "No tmux session available - please ensure at least one session exists"
     "WAIT_IDLE_FAILED"), w).
Proof.
  intro H.
  unfold wait_idle, try_except, bind, _find_pane_by_index, session, bind.
  now rewrite H.
Qed.

(** The text of a snapshot is its lines joined by newlines, not merely put
    end to end: [a], [b] is not [ab], but it is the one line [a\nb]. *)
Example lines_are_separated :
  normalize (Some ["a"; "b"]) <> normalize (Some ["ab"]) /\
  normalize (Some ["a"; "b"]) =
  normalize (Some [String "a"%char (Py.newline ++ "b")]).
Proof. split; [discriminate|reflexivity]. Qed.

(** The runs of the three scenarios of the specification. *)
Example scenario_1_run :
  exists e w',
    wait_idle 10 dev 1 0 5 1 (1 # 5) world0 =
    (Some (WaitSuccess e 1 0 "dev"), w') /\
    1 # 5 <= e /\ e <= 14 # 10 /\ fetch_calls w' = 6%nat.
Proof.
  eexists _, _. split; [vm_compute; reflexivity|].
  repeat split; intro H; discriminate H.
Qed.

Example scenario_2_run :
  exists e w',
    wait_idle 10 dev 1 0 2 5 (1 # 2) world0 =
    (Some (WaitTimeout e 2 1 0 "dev"), w') /\
    2 <= e /\ e <= 2 + (1 # 2) /\ fetch_calls w' = 4%nat.
Proof.
  eexists _, _. split; [vm_compute; reflexivity|].
  repeat split; intro H; discriminate H.
Qed.

Example scenario_3_run :
  wait_idle 10 dev 1 2 5 1 (1 # 5) world0 =
  (Some (Error "can't find pane" "WAIT_IDLE_FAILED"),
   mkWorld (10 # 25) 1 3 2).
Proof. vm_compute. reflexivity. Qed.

(** A pane that shows nothing is idle from the start: the first poll is no
    change, and the success comes at the first poll a quiet period after
    the start. *)
Example empty_pane_run :
  exists e w',
    wait_idle 10 dev 1 4 5 1 (1 # 2) world0 =
    (Some (WaitSuccess e 1 4 "dev"), w') /\
    e == 1 /\ fetch_calls w' = 3%nat.
Proof.
  eexists _, _. split; [vm_compute; reflexivity|]. now split.
Qed.

(** [lines = 0] does not cut: [result[-0:]] is the whole list. *)
Example capture_pane_zero_lines :
  fst (capture_pane dev 1 3 0 world0) =
  CaptureSuccess (Py.join_lines ["l1"; "l2"; "l3"; "l4"; "l5"]) 5 1 3 "dev".
Proof. reflexivity. Qed.



(** Scenario 2 of the specification: [timeout = 2], [quiet_for = 5], on a
    pane whose captures take no time. *)
Lemma quiet_longer_than_timeout_times_out_witness :
  (forall fuel w r w',
      wait_idle fuel dev 1 0 2 5 (1 # 2) w = (Some r, w') ->
      status r <> "success") /\
  exists e w',
    forall fuel, (Z.to_nat (Qceiling (2 / (1 # 2))) < fuel)%nat ->
      wait_idle fuel dev 1 0 2 5 (1 # 2) world0 =
      (Some (WaitTimeout e 2 1 0 "dev"), w').
Proof.
  assert (H0 : forall n, seconds (took abc_pane n) <= 0)
    by (intros n; vm_compute; intro H; discriminate H).
  assert (H1 : 2 + 0 <= 5) by (vm_compute; intro H; discriminate H).
  assert (H2 : 0 < 1 # 2) by (unfold Qlt; simpl; lia).
  assert (H3 : 1 # 2 <= Py.sleep_max) by (vm_compute; intro H; discriminate H).
  destruct (@quiet_longer_than_timeout_times_out dev 1 0 2 5 (1 # 2) abc_pane
              0 dev_resolves_abc H0 H1) as [A B].
  split; [exact A|].
  apply (B H2 H3); intros n; discriminate.
Defined.

(** Scenario 3 of the specification: the third capture raises. *)
Lemma failed_fetch_aborts_wait_witness :
  fst (wait_idle 10 dev 1 2 5 1 (1 # 5) world0) =
    Some (Error "can't find pane" "WAIT_IDLE_FAILED") /\
  fetch_calls (snd (wait_idle 10 dev 1 2 5 1 (1 # 5) world0)) = 3%nat /\
  fetch_returns (snd (wait_idle 10 dev 1 2 5 1 (1 # 5) world0)) = 2%nat.
Proof.
  apply (@failed_fetch_aborts_wait dev 1 2 5 1 (1 # 5) flaky_pane 10 world0
           2%nat "can't find pane").
  - exact dev_resolves_flaky.
  - apply surjective_pairing.
  - reflexivity.
  - vm_compute. lia.
Defined.

(** The steady pane again: its success comes after [quiet_for] and after
    the first poll. *)
Lemma success_takes_quiet_for_and_a_poll_witness :
  1 <= 3125 # 3125 /\
  (forall s, screen abc_pane 0 = Returns s -> normalize s <> "" ->
             1 # 5 <= 3125 # 3125 /\ (0 + 2 <= 6)%nat).
Proof.
  apply (@success_takes_quiet_for_and_a_poll dev 1 0 5 1 (1 # 5) abc_pane
           10 world0 (3125 # 3125) 1 0 "dev"
           (mkWorld (3125 # 3125) 1 6 6)).
  - exact dev_resolves_abc.
  - vm_compute. reflexivity.
Defined.

(** [None] and one empty line are the same text to the detector. *)
Lemma snapshots_compared_as_text_witness :
  wait_idle 20 dev_blank 1 4 5 1 (1 # 5) world0 =
  wait_idle 20 dev 1 4 5 1 (1 # 5) world0.
Proof.
  destruct (@snapshots_compared_as_text dev 1 4 5 1 (1 # 5) none_pane
              dev_resolves_none) as (_ & _ & _ & E).
  apply (E dev_blank blank_pane 20%nat world0).
  - exact dev_blank_resolves.
  - reflexivity.
  - intros n. split; reflexivity.
Defined.

(** The first pass over the steady pane. *)
Lemma last_change_time_moves_forward_witness :
  start_time (mkIdle 0 "abc" 0) = clock world0 /\
  start_time (mkIdle 0 "abc" 0) <= last_change_time (mkIdle 0 "abc" 0).
Proof.
  destruct (@last_change_time_moves_forward dev 1 0 5 1 (1 # 5) abc_pane
              world0 (slept (1 # 5) (fetched abc_pane true world0))
              (mkIdle 0 "abc" 0)) as (A & B & _).
  - eapply reaches_step; [apply reaches_here|]. vm_compute. reflexivity.
  - split; [exact A|exact B].
Defined.

(** There is no window 2 in the sample session. *)
Lemma unresolved_target_not_found_witness :
  exists msg w',
    wait_idle 0 dev 2 0 5 1 (1 # 5) world0 =
    (Some (Error msg "PANE_NOT_FOUND"), w') /\
    (msg = "Window " ++ Py.str 2 ++ " not found" \/
     msg = "Pane " ++ Py.str 0 ++ " not found in window " ++ Py.str 2) /\
    lookups w' = S (lookups world0) /\
    fetch_calls w' = fetch_calls world0 /\
    fetch_returns w' = fetch_returns world0 /\
    clock w' = clock world0.
Proof.
  apply (@unresolved_target_not_found 0 dev 2 0 5 1 (1 # 5) world0).
  exact dev_window_2_unresolved.
Defined.

(** The default configuration: [timeout = 30], [quiet_for = 2],
    [poll_interval = 0.1]. *)
Lemma wait_idle_terminates_witness :
  exists r w',
    wait_outcome r /\
    (fetch_calls w' <=
     fetch_calls world0 + Z.to_nat (Qceiling (30 / (1 # 10))))%nat /\
    forall fuel,
      (Z.to_nat (Qceiling (30 / (1 # 10))) + 1 <= fuel)%nat ->
      wait_idle fuel dev 1 0 30 2 (1 # 10) world0 = (Some r, w').
Proof.
  apply (@wait_idle_terminates dev 1 0 30 2 (1 # 10) abc_pane world0).
  - exact dev_resolves_abc.
  - unfold Qlt. simpl. lia.
  - unfold Qlt. simpl. lia.
Defined.

(** The last two of the five lines of the log pane. *)
Lemma capture_pane_last_lines_witness :
  fst (capture_pane dev 1 3 2 world0) =
  CaptureSuccess (Py.join_lines ["l4"; "l5"]) 2 1 3 "dev".
Proof.
  apply (@capture_pane_last_lines dev 1 3 2 log_pane world0
           (Some ["l1"; "l2"; "l3"; "l4"; "l5"])).
  - exact dev_resolves_log.
  - lia.
  - reflexivity.
Defined.

(** * Further properties of the manager *)

(** ** [capture_pane] *)

(** What [capture_pane] returns for a pane found whose capture returns. *)
Lemma capture_pane_returns self wi pi lines p w s :
  resolves self wi pi p ->
  screen p (fetch_calls w) = Returns s ->
  capture_pane self wi pi lines w =
  (let result := if (Py.len (lines_of s) >? lines)%Z
                 then Py.slice_from (lines_of s) (- lines)
                 else lines_of s in
   CaptureSuccess (Py.join_lines result) (Py.len result)
                  wi pi (session_name self),
   fetched p true (looked w)).
Proof.
  intros R Hs. destruct (find_resolved w R) as (win & F).
  unfold capture_pane, try_except, bind. rewrite F.
  unfold pane_capture_pane. simpl. rewrite Hs. unfold ret. simpl.
  now rewrite join_or_empty.
Qed.

(** With [lines <= 0] the capture is cut at the front, not at the back:
    [lines = 0] keeps every line, and [lines = -k] drops the first [k]
    lines and keeps the rest, which is nothing when the pane shows [k]
    lines or fewer. *)
Theorem capture_pane_nonpositive_lines self wi pi lines p w s :
  resolves self wi pi p ->
  (lines <= 0)%Z ->
  screen p (fetch_calls w) = Returns s ->
  let kept := skipn (Z.to_nat (- lines)) (lines_of s) in
  fst (capture_pane self wi pi lines w) =
  CaptureSuccess (Py.join_lines kept) (Py.len kept) wi pi (session_name self).
Proof.
  intros R Hl Hs kept. rewrite (@capture_pane_returns self wi pi lines p w s R Hs). simpl.
  assert (E : (if (Py.len (lines_of s) >? lines)%Z
               then Py.slice_from (lines_of s) (- lines)
               else lines_of s) = kept).
  { subst kept. unfold Py.slice_from, Py.len.
    destruct (Z.gtb_spec (Z.of_nat (length (lines_of s))) lines) as [Hgt|Hle].
    - destruct (Z.ltb_spec (- lines) 0); [lia|].
      destruct (Z.le_ge_cases (- lines) (Z.of_nat (length (lines_of s))))
        as [Hk|Hk].
      + now rewrite Z.min_l.
      + rewrite Z.min_r by trivial. rewrite Nat2Z.id.
        rewrite !skipn_all2; trivial; lia.
    - assert (length (lines_of s) = 0%nat) by lia.
      destruct (lines_of s); [|discriminate].
      now destruct (Z.to_nat (- lines)). }
  now rewrite E.
Qed.

(** With at least as many [lines] as the pane shows (or [lines = 0]) the
    content [capture_pane] returns is the very text [wait_idle] compares,
    and the count is the number of lines captured. *)
Theorem capture_pane_shows_detector_text self wi pi lines p w s :
  resolves self wi pi p ->
  (Py.len (lines_of s) <= lines \/ lines = 0)%Z ->
  screen p (fetch_calls w) = Returns s ->
  fst (capture_pane self wi pi lines w) =
  CaptureSuccess (normalize s) (Py.len (lines_of s))
                 wi pi (session_name self).
Proof.
  intros R Hl Hs. rewrite (@capture_pane_returns self wi pi lines p w s R Hs). simpl.
  unfold normalize. rewrite join_or_empty.
  destruct (Z.gtb_spec (Py.len (lines_of s)) lines) as [Hgt|Hle]; trivial.
  destruct Hl as [Hl| ->]; [lia|].
  unfold Py.slice_from. simpl. rewrite Z.min_l by lia. reflexivity.
Qed.

Local Ltac tally :=
  repeat split; intros; try lia; try discriminate; try reflexivity;
  exfalso; lia.

(** Whatever the manager, the target and the world, [capture_pane] looks
    the window up at most once and captures at most once; it never sleeps:
    its clock stands still when it makes no capture, and advances by the
    time the capture of the pane found takes when it makes one; and it
    answers with a success exactly when a capture returned. *)
Theorem capture_pane_effects self wi pi lines w :
  let r := fst (capture_pane self wi pi lines w) in
  let w' := snd (capture_pane self wi pi lines w) in
  ((fetch_calls w' = fetch_calls w /\ clock w' = clock w) \/
   (exists p, resolves self wi pi p /\
              fetch_calls w' = S (fetch_calls w) /\
              clock w' = clock w + seconds (took p (fetch_calls w)))) /\
  (lookups w' <= lookups w + 1)%nat /\
  (fetch_calls w' <= fetch_calls w + 1)%nat /\
  (status r = "success" <-> fetch_returns w' = S (fetch_returns w)) /\
  (status r = "error" <-> fetch_returns w' = fetch_returns w).
Proof.
  unfold capture_pane, try_except, bind, _find_pane_by_index, session, bind,
    session_find_where, ret, raise.
  destruct (_session self) as [s|] eqn:Hs; simpl;
    [|split; [left; split; reflexivity|tally]].
  destruct (find_window s (Py.str wi)) as [win|] eqn:Hw; simpl;
    [|split; [left; split; reflexivity|tally]].
  destruct (find_pane win (Py.str pi)) as [p|] eqn:Hp; simpl;
    [|split; [left; split; reflexivity|tally]].
  assert (R : resolves self wi pi p) by now exists s, win.
  unfold pane_capture_pane. simpl.
  destruct (screen p (fetch_calls w)) as [s0|msg]; simpl;
    (split; [right; exists p; now repeat split|tally]).
Qed.

(** The three ways [capture_pane] fails, by cause: no session, raising
    lookup; window or pane not found; a capture that raises.  Only the last
    one has touched the pane. *)
Theorem capture_pane_errors self wi pi lines w :
  (_session self = None ->
   capture_pane self wi pi lines w =
   (Error
      "No tmux session available - please ensure at least one session exists"
      "CAPTURE_PANE_FAILED", w)) /\
  (unresolved self wi pi ->
   exists msg,
     capture_pane self wi pi lines w =
     (Error msg "PANE_NOT_FOUND", looked w) /\
     (msg = "Window " ++ Py.str wi ++ " not found" \/
      msg = "Pane " ++ Py.str pi ++ " not found in window " ++ Py.str wi)) /\
  (forall p msg,
      resolves self wi pi p ->
      screen p (fetch_calls w) = Raises msg ->
      capture_pane self wi pi lines w =
      (Error msg "CAPTURE_PANE_FAILED", fetched p false (looked w))).
Proof.
  split; [|split].
  - intro H.
    unfold capture_pane, try_except, bind, _find_pane_by_index, session, bind.
    now rewrite H.
  - intros (s & Hs & Hw).
    unfold capture_pane, try_except, bind, _find_pane_by_index, session, bind,
      session_find_where, ret.
    rewrite Hs.
    destruct (find_window s (Py.str wi)) as [win|].
    + rewrite Hw. eexists. split; [reflexivity|now right].
    + eexists. split; [reflexivity|now left].
  - intros p msg R Hs. destruct (find_resolved w R) as (win & F).
    unfold capture_pane, try_except, bind. rewrite F.
    unfold pane_capture_pane. simpl. now rewrite Hs.
Qed.

(** ** [_find_pane_by_index] *)

(** The lookup does what its result says, in each of its three shapes: a
    window and a pane with the indices asked for, the pane in the window
    and the window in the session; no window, and then no window of the
    session has the index; a window but no pane, and then no pane of that
    window has the index.  A pane and an error never come together, and the
    lookup asks the session once. *)
Theorem find_pane_by_index_sound self wi pi w out w' :
  _find_pane_by_index self wi pi w = (Ok out, w') ->
  w' = looked w /\
  exists s,
    _session self = Some s /\
    match out with
    | (Some win, Some p, None) =>
        In win (windows s) /\ window_index win = Py.str wi /\
        In p (panes win) /\ pane_index p = Py.str pi
    | (None, None, Some msg) =>
        msg = "Window " ++ Py.str wi ++ " not found" /\
        forall win, In win (windows s) -> window_index win <> Py.str wi
    | (Some win, None, Some msg) =>
        In win (windows s) /\ window_index win = Py.str wi /\
        msg = "Pane " ++ Py.str pi ++ " not found in window " ++ Py.str wi /\
        forall p, In p (panes win) -> pane_index p <> Py.str pi
    | _ => False
    end.
Proof.
  unfold _find_pane_by_index, session, bind, session_find_where, ret, raise.
  destruct (_session self) as [s|]; [|discriminate].
  unfold find_window, find_pane.
  destruct (find _ (windows s)) as [win|] eqn:Fw.
  - apply find_some in Fw. destruct Fw as [Iw Ew]. apply String.eqb_eq in Ew.
    destruct (find _ (panes win)) as [p|] eqn:Fp; intro H; inversion H; subst;
      (split; [reflexivity|]); exists s; (split; [reflexivity|]).
    + apply find_some in Fp. destruct Fp as [Ip Ep].
      apply String.eqb_eq in Ep. now repeat split.
    + repeat split; trivial. intros p Ip.
      apply String.eqb_neq. exact (find_none _ _ Fp p Ip).
  - intro H; inversion H; subst. split; [reflexivity|].
    exists s. repeat split. intros win Iw.
    apply String.eqb_neq. exact (find_none _ _ Fw win Iw).
Qed.

Lemma find_only {A} (key : A -> string) (k : string) (l : list A) (a : A) :
  In a l -> key a = k ->
  (forall b, In b l -> key b = k -> b = a) ->
  find (fun x => String.eqb (key x) k) l = Some a.
Proof.
  induction l as [|b l IH]; intros Hin Hk Hu; [contradiction|].
  simpl. destruct (String.eqb_spec (key b) k) as [E|N].
  - f_equal. apply Hu; [now left|exact E].
  - destruct Hin as [->|Hin]; [contradiction|].
    apply IH; trivial. intros c Hc. apply Hu. now right.
Qed.

(** A pane that sits in a window of the session, where the window is the
    only window of the session with the window index asked for and the
    pane is the only pane of that window with the pane index asked for, is
    the pane the lookup finds; the other windows and panes may carry any
    indices. *)
Theorem find_pane_by_index_complete self s wi pi win p :
  _session self = Some s ->
  In win (windows s) -> window_index win = Py.str wi ->
  (forall win', In win' (windows s) -> window_index win' = Py.str wi ->
                win' = win) ->
  In p (panes win) -> pane_index p = Py.str pi ->
  (forall q, In q (panes win) -> pane_index q = Py.str pi -> q = p) ->
  forall w,
    _find_pane_by_index self wi pi w = (Ok (Some win, Some p, None), looked w).
Proof.
  intros Hs Iw Ew Uw Ip Ep Up w.
  unfold _find_pane_by_index, session, bind, session_find_where, ret.
  rewrite Hs. unfold find_window, find_pane.
  rewrite (@find_only _ window_index _ _ _ Iw Ew Uw).
  now rewrite (@find_only _ pane_index _ _ _ Ip Ep Up).
Qed.

(** ** More on [wait_idle] *)

(** With a timeout that is not positive the loop is not entered:
    [wait_idle] answers with a timeout at once, after no capture and no
    sleep, and the elapsed time is zero. *)
Theorem wait_idle_nonpositive_timeout
    fuel self wi pi timeout quiet_for poll_interval p w :
  resolves self wi pi p ->
  timeout <= 0 ->
  exists e,
    wait_idle (S fuel) self wi pi timeout quiet_for poll_interval w =
    (Some (WaitTimeout e timeout wi pi (session_name self)), looked w) /\
    e == 0.
Proof.
  intros R Ht. rewrite (wait_idle_resolved _ _ _ _ _ R), loop_S.
  destruct (iter_cases self wi pi timeout quiet_for poll_interval p
              (initial_state (looked w)) (looked w))
    as [? E|? Hc ? E|s Hc ? ? ? ? E|s ? Hc ? ? ? ? E
        |s Hc ? ? ? E|s Hc ? ? ? ? ? E|s ? Hc ? ? ? ? ? E];
    simpl in *; try (exfalso; lra).
  rewrite E. eexists. split; [reflexivity|]. simpl. ring.
Qed.

(** A success is reported at least a quiet period after the start; the
    poll that reports it began before the timeout had passed, so that the
    success comes after the timeout by less than the time its own capture
    took. *)
Theorem success_within_timeout_and_capture
    fuel self wi pi timeout quiet_for poll_interval p w e a b c w' :
  resolves self wi pi p ->
  wait_idle fuel self wi pi timeout quiet_for poll_interval w =
  (Some (WaitSuccess e a b c), w') ->
  quiet_for <= e /\
  e - seconds (took p (fetch_calls w' - 1)) < timeout /\
  (fetch_calls w < fetch_calls w')%nat.
Proof.
  intros R. rewrite (wait_idle_resolved _ _ _ _ _ R).
  destruct (wait_loop _ _ _ _ _ _ _ _ _ _) as [[[r1|]|msg] w1] eqn:L;
    intro H; inversion H; subst; clear H.
  pose proof L as L'.
  apply loop_outcome in L; [|apply well_timed_initial].
  destruct L as [(e' & E & _)|(e' & E & Hq & Ht)]; inversion E; subst.
  repeat split; trivial; [lra|].
  apply loop_returns in L'. destruct L' as (wl & stl & Rch & F).
  destruct (reaches_count Rch) as (k & Hc & _).
  apply return_cases in F.
  destruct F as [(_ & F & _)|(_ & _ & _ & -> & _)]; [discriminate F|].
  simpl in *. lia.
Qed.


Lemma loop_iter_before_timeout
    self wi pi timeout timeout' quiet_for poll_interval p st w :
  clock w - start_time st < timeout -> timeout <= timeout' ->
  loop_iter self wi pi timeout' quiet_for poll_interval p st w =
  loop_iter self wi pi timeout quiet_for poll_interval p st w.
Proof.
  intros H1 H2. unfold loop_iter, bind, time_time.
  rewrite (proj2 (lt_true_iff (clock w - start_time st) timeout) H1).
  assert (H3 : clock w - start_time st < timeout') by lra.
  now rewrite (proj2 (lt_true_iff (clock w - start_time st) timeout') H3).
Qed.

Lemma loop_success_larger_timeout
    self wi pi timeout timeout' quiet_for poll_interval p fuel :
  timeout <= timeout' ->
  forall st w e a b c w',
    wait_loop self wi pi timeout quiet_for poll_interval p fuel st w =
    (Ok (Some (WaitSuccess e a b c)), w') ->
    wait_loop self wi pi timeout' quiet_for poll_interval p fuel st w =
    (Ok (Some (WaitSuccess e a b c)), w').
Proof.
  intro Hle. induction fuel as [|fuel IH]; intros st w e a b c w' H.
  - discriminate H.
  - rewrite loop_S in *.
    destruct (iter_cases self wi pi timeout quiet_for poll_interval p st w)
      as [? E|? Hc ? E|s Hc ? ? ? ? E|s ? Hc ? ? ? ? E
          |s Hc ? ? ? E|s Hc ? ? ? ? ? E|s ? Hc ? ? ? ? ? E];
      rewrite E in H; try discriminate H;
      rewrite (loop_iter_before_timeout _ _ _ _ _ _ _ _ Hc Hle), E;
      trivial; now apply IH.
Qed.

(** A success does not depend on the timeout it beat: with any larger
    timeout [wait_idle] makes the same calls and reports the same
    success. *)
Theorem larger_timeout_keeps_success
    fuel self wi pi timeout timeout' quiet_for poll_interval p w e a b c w' :
  resolves self wi pi p ->
  timeout <= timeout' ->
  wait_idle fuel self wi pi timeout quiet_for poll_interval w =
  (Some (WaitSuccess e a b c), w') ->
  wait_idle fuel self wi pi timeout' quiet_for poll_interval w =
  (Some (WaitSuccess e a b c), w').
Proof.
  intros R Hle. rewrite !(wait_idle_resolved _ _ _ _ _ R).
  destruct (wait_loop self wi pi timeout _ _ _ _ _ _) as [[[r1|]|msg] w1] eqn:L;
    intro H; inversion H; subst; clear H.
  apply loop_success_larger_timeout with (timeout' := timeout') in L; trivial.
  now rewrite L.
Qed.

(** A negative poll interval makes the first sleep fail: unless the first
    poll already finds the pane idle (it shows no text, and its capture
    took a quiet period or more), [wait_idle] reports the failure of the
    sleep after a single capture. *)
Theorem negative_poll_interval_fails
    fuel self wi pi timeout quiet_for poll_interval p w s :
  resolves self wi pi p ->
  0 < timeout ->
  poll_interval < 0 ->
  screen p (fetch_calls w) = Returns s ->
  seconds (took p (fetch_calls w)) < quiet_for \/ normalize s <> "" ->
  wait_idle (S fuel) self wi pi timeout quiet_for poll_interval w =
  (Some (Error "sleep length must be non-negative" "WAIT_IDLE_FAILED"),
   fetched p true (looked w)).
Proof.
  intros R Ht Hp Hs Hq. rewrite (wait_idle_resolved _ _ _ _ _ R), loop_S.
  assert (Hm : Py.sleep_refuses poll_interval =
               Some "sleep length must be non-negative").
  { unfold Py.sleep_refuses.
    now rewrite (proj2 (lt_true_iff poll_interval 0) Hp). }
  destruct (iter_cases self wi pi timeout quiet_for poll_interval p
              (initial_state (looked w)) (looked w))
    as [? E|? Hc Hr E|s' Hc Hr ? ? ? E|s' msg Hc Hr ? ? Hmsg E
        |s' Hc Hr Hn Hi E|s' Hc Hr ? ? ? ? E|s' msg Hc Hr ? ? ? Hmsg E];
    simpl in *; try (exfalso; lra);
    try (rewrite E; rewrite Hm in Hmsg; inversion Hmsg; reflexivity).
  - congruence.
  - exfalso. rewrite Hs in Hr. inversion Hr; subst s'.
    destruct Hq as [Hq|Hq]; [lra|now apply Hq].
Qed.



(** ** [__init__] *)

Lemma find_first {A} (f : A -> bool) (l : list A) (a : A) :
  find f l = Some a ->
  exists l1 l2, l = (l1 ++ a :: l2)%list /\ f a = true /\
                forall x, In x l1 -> f x = false.
Proof.
  induction l as [|b l IH]; [discriminate|]. simpl.
  destruct (f b) eqn:Fb.
  - intro H; inversion H; subst. exists [], l. now repeat split.
  - intro H. destruct (IH H) as (l1 & l2 & -> & Fa & Hl1).
    exists (b :: l1), l2. repeat split; trivial.
    intros x [<-|Hx]; auto.
Qed.

(** The manager has a session exactly when the server lists one, and the
    name it then goes by is the name that session is listed under. *)
Theorem init_session_is_listed server_sessions tmux_env name verb :
  let o := __init__ server_sessions tmux_env name verb in
  (_session (manager o) = None <-> server_sessions = []) /\
  (forall s, _session (manager o) = Some s ->
     exists ls, In ls server_sessions /\ listed ls = s /\
                listed_name ls = session_name (manager o)).
Proof.
  unfold __init__.
  destruct (find _ server_sessions) as [ls|] eqn:F.
  - apply find_some in F. destruct F as [Hin E]. apply String.eqb_eq in E.
    simpl. split.
    + split; [discriminate|]. intros ->. contradiction.
    + intros s H; inversion H; subst. now exists ls.
  - destruct server_sessions as [|ls rest]; simpl.
    + split; [now split|discriminate].
    + split; [split; discriminate|].
      intros s H; inversion H; subst. exists ls. repeat split. now left.
Qed.

(** Which session: the first one listed under the name asked for, the name
    being kept; and when no session is listed under it, the first session
    of all, the manager going by that session's name instead of the name
    asked for. *)
Theorem init_picks_named_or_first server_sessions tmux_env name verb :
  let o := __init__ server_sessions tmux_env name verb in
  (forall ls, In ls server_sessions -> listed_name ls = name ->
     exists before ls' after,
       server_sessions = (before ++ ls' :: after)%list /\
       listed_name ls' = name /\
       (forall x, In x before -> listed_name x <> name) /\
       manager o = mkManager name (Some (listed ls'))) /\
  ((forall ls, In ls server_sessions -> listed_name ls <> name) ->
   forall first rest, server_sessions = first :: rest ->
     manager o = mkManager (listed_name first) (Some (listed first)) /\
     session_name (manager o) <> name).
Proof.
  unfold __init__. split.
  - intros ls Hin Hn.
    destruct (find _ server_sessions) as [ls'|] eqn:F.
    + destruct (find_first _ _ F) as (l1 & l2 & E & Fa & Hl1).
      apply String.eqb_eq in Fa.
      exists l1, ls', l2. repeat split; trivial.
      intros x Hx. apply String.eqb_neq. now apply Hl1.
    + exfalso. pose proof (find_none _ _ F ls Hin) as Hf. simpl in Hf.
      apply String.eqb_neq in Hf. contradiction.
  - intros Hnone first rest ->.
    destruct (find _ (first :: rest)) as [ls'|] eqn:F.
    + exfalso. apply find_some in F. destruct F as [Hin E].
      apply String.eqb_eq in E. now apply (Hnone ls').
    + simpl. split; trivial. apply Hnone. now left.
Qed.

(** ** The operations that act on tmux *)

Lemma tmux_calls_app l l' :
  tmux_calls (l ++ l') = (tmux_calls l ++ tmux_calls l')%list.
Proof. apply filter_app. Qed.

Lemma doings_app l l' : doings (l ++ l') = (doings l ++ doings l')%list.
Proof. apply filter_app. Qed.

Lemma lift_find_resolved self wi pi p h :
  resolves self wi pi p ->
  exists win,
    lift (_find_pane_by_index self wi pi) h =
    (Ok (Some win, Some p, None), mkHost (looked (env h)) (calls h)).
Proof.
  intro R. destruct (find_resolved (env h) R) as (win & F).
  exists win. unfold lift. now rewrite F.
Qed.

Lemma first_pane_find key ps :
  first_pane key ps = find (fun p => String.eqb (pane_index p) key) ps.
Proof.
  induction ps as [|p ps IH]; trivial. simpl.
  now destruct (String.eqb (pane_index p) key).
Qed.

(** [send_command] sends the keys to the pane the lookup finds and to no
    other, once, with the command and the enter flag as given; when the
    lookup finds no pane it calls nothing.  It never captures and never
    sleeps. *)
Theorem send_command_reaches_only_target ext self wi pi command enter h :
  let r := fst (send_command ext self wi pi command enter h) in
  let h' := snd (send_command ext self wi pi command enter h) in
  clock (env h') = clock (env h) /\
  fetch_calls (env h') = fetch_calls (env h) /\
  (forall p, resolves (manager self) wi pi p ->
     tmux_calls (calls h') =
     (tmux_calls (calls h) ++ [SendKeys p command enter])%list /\
     r = match send_keys_raises ext p command enter with
         | None => CommandSent command wi pi (session_name (manager self))
         | Some msg => Failed msg "SEND_COMMAND_FAILED"
         end) /\
  ((forall p, ~ resolves (manager self) wi pi p) ->
   calls h' = calls h /\ exists msg code, r = Failed msg code).
Proof.
  split; [|split; [|split]].
  - unfold send_command, htry_except, hbind, lift, _find_pane_by_index,
      session, bind, session_find_where, ret, raise.
    destruct (_session (manager self)) as [s|]; simpl; trivial.
    destruct (find_window s (Py.str wi)) as [win|]; simpl; trivial.
    destruct (find_pane win (Py.str pi)) as [p|]; simpl; trivial.
    unfold call, trace, print_dict, hret.
    destruct (send_keys_raises ext p command enter); simpl; trivial.
    destruct (verbose self); reflexivity.
  - unfold send_command, htry_except, hbind, lift, _find_pane_by_index,
      session, bind, session_find_where, ret, raise.
    destruct (_session (manager self)) as [s|]; simpl; trivial.
    destruct (find_window s (Py.str wi)) as [win|]; simpl; trivial.
    destruct (find_pane win (Py.str pi)) as [p|]; simpl; trivial.
    unfold call, trace, print_dict, hret.
    destruct (send_keys_raises ext p command enter); simpl; trivial.
    destruct (verbose self); reflexivity.
  - intros p R. destruct (lift_find_resolved h R) as (win & F).
    unfold send_command, htry_except, hbind. rewrite F.
    unfold call, trace, print_dict, hret, recorded.
    destruct (send_keys_raises ext p command enter); simpl.
    + rewrite tmux_calls_app. now split.
    + destruct (verbose self); simpl;
        rewrite !tmux_calls_app; simpl; rewrite ?app_nil_r; now split.
  - intro Hno.
    unfold send_command, htry_except, hbind, lift, _find_pane_by_index,
      session, bind, session_find_where, ret, raise.
    destruct (_session (manager self)) as [s|] eqn:Hs; simpl;
      [|split; [reflexivity|now eexists _, _]].
    destruct (find_window s (Py.str wi)) as [win|] eqn:Hw; simpl;
      [|split; [reflexivity|now eexists _, _]].
    destruct (find_pane win (Py.str pi)) as [p|] eqn:Hp; simpl;
      [|split; [reflexivity|now eexists _, _]].
    exfalso. apply (Hno p). now exists s, win.
Qed.

(** [kill_pane] searches the window by a loop of its own, and agrees with
    the lookup of the other operations: it kills the pane that lookup
    finds, and that pane only; when the lookup reports an error it fails
    with the same message and has killed nothing.  Its code for a missing
    window is [WINDOW_NOT_FOUND], where the others say [PANE_NOT_FOUND]. *)
Theorem kill_pane_agrees_with_lookup ext self wi pi h :
  let r := fst (kill_pane ext self wi pi h) in
  let h' := snd (kill_pane ext self wi pi h) in
  (forall p, resolves (manager self) wi pi p ->
     calls h' = (calls h ++ [KillPane p])%list /\
     r = match kill_pane_raises ext p with
         | None => PaneKilled wi pi (session_name (manager self))
         | Some msg => Failed msg "KILL_PANE_FAILED"
         end) /\
  (forall win pane msg w w',
     _find_pane_by_index (manager self) wi pi w =
     (Ok (win, pane, Some msg), w') ->
     calls h' = calls h /\
     r = Failed msg (match win with
                     | None => "WINDOW_NOT_FOUND"
                     | Some _ => "PANE_NOT_FOUND"
                     end)).
Proof.
  split.
  - intros p (s & win & Hs & Hw & Hp).
    unfold kill_pane, htry_except, hbind, lift, session, session_find_where,
      ret.
    rewrite Hs. simpl. rewrite Hw, first_pane_find. fold (find_pane win (Py.str pi)).
    rewrite Hp. unfold call, hret, recorded.
    destruct (kill_pane_raises ext p); now split.
  - intros win pane msg w w'.
    unfold kill_pane, htry_except, hbind, lift, _find_pane_by_index, session,
      bind, session_find_where, ret, raise.
    destruct (_session (manager self)) as [s|]; [|discriminate]. simpl.
    destruct (find_window s (Py.str wi)) as [win0|].
    + rewrite first_pane_find. fold (find_pane win0 (Py.str pi)).
      destruct (find_pane win0 (Py.str pi)) as [p|];
        intro H; inversion H; subst. now split.
    + intro H; inversion H; subst. now split.
Qed.

(** [kill_window] kills at most one window, a window of the session that
    carries the index asked for; when no window of the session carries it,
    nothing is killed and the window is reported as not found. *)
Theorem kill_window_only_the_indexed ext self wi h :
  let r := fst (kill_window ext self wi h) in
  let h' := snd (kill_window ext self wi h) in
  ((calls h' = calls h /\ exists msg code, r = Failed msg code) \/
   (exists s win,
      _session (manager self) = Some s /\
      In win (windows s) /\ window_index win = Py.str wi /\
      calls h' = (calls h ++ [KillWindow win])%list /\
      r = match kill_window_raises ext win with
          | None => WindowKilled wi (session_name (manager self))
          | Some msg => Failed msg "KILL_WINDOW_FAILED"
          end)) /\
  (forall s, _session (manager self) = Some s ->
     (forall win, In win (windows s) -> window_index win <> Py.str wi) ->
     calls h' = calls h /\
     r = Failed ("Window " ++ Py.str wi ++ " not found") "WINDOW_NOT_FOUND").
Proof.
  unfold kill_window, htry_except, hbind, lift, session, session_find_where,
    ret, raise.
  destruct (_session (manager self)) as [s|] eqn:Hs; simpl.
  2:{ split; [left; split; [reflexivity|now eexists _, _]|discriminate]. }
  unfold find_window.
  destruct (find _ (windows s)) as [win|] eqn:Hw; simpl.
  - apply find_some in Hw. destruct Hw as [Hin E]. apply String.eqb_eq in E.
    split.
    + right. exists s, win. unfold call, hret, recorded.
      destruct (kill_window_raises ext win); now repeat split.
    + intros s' H' Hnone. inversion H'; subst s'.
      exfalso. now apply (Hnone win).
  - split; [left; split; [reflexivity|now eexists _, _]|].
    intros s' _ _. now split.
Qed.


(** [create_window] starts the shell in the new window before it sends the
    command, in this order: the window is created, the shell is sent to its
    attached pane, 0.2 seconds are slept, and then the command is sent to
    the same pane, if it is neither [None] nor empty.  The window index is
    read as an integer only after all that: when that fails, the failure
    is reported although the window exists and has received its keys. *)
Theorem create_window_starts_shell_first
    ext self name command shell h s window pane :
  _session (manager self) = Some s ->
  new_window_gives ext s name = Ok window ->
  attached_pane ext window = Some pane ->
  send_keys_raises ext pane shell true = None ->
  command_raises ext pane command = None ->
  let r := fst (create_window ext self name command shell h) in
  let h' := snd (create_window ext self name command shell h) in
  doings (calls h') =
  (doings (calls h) ++
   NewWindow s name :: SendKeys pane shell true :: Slept (1 # 5) ::
   command_keys pane command)%list /\
  clock (env h') = clock (env h) + (1 # 5) /\
  r = match int_of ext (window_index window) with
      | Ok index =>
          WindowCreated (session_id s ++ ":" ++ window_index window) index
                        (pane_id pane) name (session_name (manager self))
                        (inside_tmux self)
      | Raise msg => Failed msg "CREATE_WINDOW_FAILED"
      end.
Proof.
  intros Hs Hn Ha Hk Hc.
  unfold create_window, htry_except, hbind, lift, session, ret, call_for,
    call, trace, print_dict, hret, recorded, sleep_for, lift, time_sleep.
  rewrite Hs. simpl. rewrite Hn. simpl. rewrite Ha, Hk. simpl.
  destruct command as [[|c0 cs]|]; simpl in *; rewrite ?Hc; simpl;
    destruct (int_of ext (window_index window)); simpl;
    try destruct (verbose self); simpl;
    rewrite ?doings_app; simpl; rewrite <- ?app_assoc; simpl;
    rewrite ?app_nil_r; now repeat split.
Qed.

(** [create_window] gives up at the first call that fails and undoes
    nothing: when the window cannot be created nothing else is called; a
    window without an attached pane has been created and is left as it is;
    when the shell cannot be sent there is no sleep and no command. *)
Theorem create_window_gives_up_early ext self name command shell h s :
  _session (manager self) = Some s ->
  let r := fst (create_window ext self name command shell h) in
  let h' := snd (create_window ext self name command shell h) in
  (forall msg,
      new_window_gives ext s name = Raise msg ->
      r = Failed msg "CREATE_WINDOW_FAILED" /\
      calls h' = (calls h ++ [NewWindow s name])%list /\
      env h' = env h) /\
  (forall window,
      new_window_gives ext s name = Ok window ->
      attached_pane ext window = None ->
      r = Failed "No attached pane found in new window"
                 "CREATE_WINDOW_FAILED" /\
      calls h' = (calls h ++ [NewWindow s name])%list /\
      env h' = env h) /\
  (forall window pane msg,
      new_window_gives ext s name = Ok window ->
      attached_pane ext window = Some pane ->
      send_keys_raises ext pane shell true = Some msg ->
      r = Failed msg "CREATE_WINDOW_FAILED" /\
      calls h' =
      (calls h ++ [NewWindow s name; SendKeys pane shell true])%list /\
      env h' = env h).
Proof.
  intros Hs.
  unfold create_window, htry_except, hbind, lift, session, ret, call_for,
    call, hraise, recorded.
  rewrite Hs. simpl. split; [|split].
  - intros msg Hn. rewrite Hn. now repeat split.
  - intros window Hn Ha. rewrite Hn. simpl. rewrite Ha. now repeat split.
  - intros window pane msg Hn Ha Hk. rewrite Hn. simpl. rewrite Ha, Hk.
    simpl. rewrite <- app_assoc. now repeat split.
Qed.

(** Without a session no operation calls tmux or touches the world: each
    fails with the message of the [session] property under its own code. *)
Theorem no_session_no_calls ext self h :
  _session (manager self) = None ->
  (forall name command shell,
      create_window ext self name command shell h =
      (Failed no_session "CREATE_WINDOW_FAILED", h)) /\
  (forall wi vertical command,
      create_pane ext self wi vertical command h =
      (Failed no_session "CREATE_PANE_FAILED", h)) /\
  (forall wi pi command enter,
      send_command ext self wi pi command enter h =
      (Failed no_session "SEND_COMMAND_FAILED", h)) /\
  (forall wi,
      kill_window ext self wi h = (Failed no_session "KILL_WINDOW_FAILED", h)) /\
  (forall wi pi,
      kill_pane ext self wi pi h = (Failed no_session "KILL_PANE_FAILED", h)) /\
  (forall wi pi lines,
      capture_pane (manager self) wi pi lines (env h) =
      (Error no_session "CAPTURE_PANE_FAILED", env h)) /\
  (forall fuel wi pi timeout quiet_for poll_interval,
      wait_idle fuel (manager self) wi pi timeout quiet_for poll_interval
                (env h) =
      (Some (Error no_session "WAIT_IDLE_FAILED"), env h)).
Proof.
  intro Hs.
  unfold create_window, create_pane, send_command, kill_window, kill_pane,
    capture_pane, wait_idle, htry_except, try_except, hbind, bind, lift,
    _find_pane_by_index, session, bind, raise.
  rewrite Hs. destruct h as [w l]. simpl. now repeat split.
Qed.

(** ** These properties on the sample session *)

Lemma capture_pane_nonpositive_lines_witness :
  fst (capture_pane dev 1 3 (-2) world0) =
  CaptureSuccess (Py.join_lines ["l3"; "l4"; "l5"]) 3 1 3 "dev".
Proof.
  apply (@capture_pane_nonpositive_lines dev 1 3 (-2) log_pane world0
           (Some ["l1"; "l2"; "l3"; "l4"; "l5"])).
  - exact dev_resolves_log.
  - lia.
  - reflexivity.
Defined.

Lemma capture_pane_shows_detector_text_witness :
  fst (capture_pane dev 1 3 100 world0) =
  CaptureSuccess (normalize (Some ["l1"; "l2"; "l3"; "l4"; "l5"])) 5
                 1 3 "dev".
Proof.
  apply (@capture_pane_shows_detector_text dev 1 3 100 log_pane world0
           (Some ["l1"; "l2"; "l3"; "l4"; "l5"])).
  - exact dev_resolves_log.
  - left. vm_compute. discriminate.
  - reflexivity.
Defined.

Lemma capture_pane_errors_witness :
  (exists msg,
     capture_pane dev 2 0 10 world0 =
     (Error msg "PANE_NOT_FOUND", looked world0) /\
     (msg = "Window " ++ Py.str 2 ++ " not found" \/
      msg = "Pane " ++ Py.str 0 ++ " not found in window " ++ Py.str 2)) /\
  capture_pane dev 1 2 10 (mkWorld 0 0 2 2) =
  (Error "can't find pane" "CAPTURE_PANE_FAILED",
   fetched flaky_pane false (looked (mkWorld 0 0 2 2))).
Proof.
  destruct (capture_pane_errors dev 2 0 10 world0) as (_ & B & _).
  destruct (capture_pane_errors dev 1 2 10 (mkWorld 0 0 2 2)) as (_ & _ & C).
  split.
  - apply B. exact dev_window_2_unresolved.
  - apply (C flaky_pane).
    + exact dev_resolves_flaky.
    + reflexivity.
Defined.

Lemma find_pane_by_index_sound_witness :
  looked world0 = looked world0 /\
  exists s,
    _session dev = Some s /\
    In dev_window (windows s) /\ window_index dev_window = Py.str 1 /\
    In log_pane (panes dev_window) /\ pane_index log_pane = Py.str 3.
Proof.
  apply (@find_pane_by_index_sound dev 1 3 world0
           (Some dev_window, Some log_pane, None) (looked world0)).
  reflexivity.
Defined.

Lemma find_pane_by_index_complete_witness :
  _find_pane_by_index dev 1 3 world0 =
  (Ok (Some dev_window, Some log_pane, None), looked world0).
Proof.
  apply (@find_pane_by_index_complete dev dev_session 1 3 dev_window log_pane).
  - reflexivity.
  - simpl. now left.
  - reflexivity.
  - intros win' [<-|[]] _. reflexivity.
  - simpl. tauto.
  - reflexivity.
  - intros q [<-|[<-|[<-|[<-|[<-|[]]]]]] H;
      first [reflexivity|discriminate H].
Defined.

Lemma wait_idle_nonpositive_timeout_witness :
  exists e,
    wait_idle 1 dev 1 0 0 1 (1 # 5) world0 =
    (Some (WaitTimeout e 0 1 0 "dev"), looked world0) /\
    e == 0.
Proof.
  apply (@wait_idle_nonpositive_timeout 0 dev 1 0 0 1 (1 # 5) abc_pane world0).
  - exact dev_resolves_abc.
  - unfold Qle. simpl. lia.
Defined.

(** On the loaded machine the pane that shows nothing is found idle after
    4 s, with a timeout of 2 s: its one capture began at once. *)
Lemma success_within_timeout_and_capture_witness :
  3 <= 4 /\
  4 - seconds (took slow_blank_pane (1 - 1)) < 2 /\
  (0 < 1)%nat.
Proof.
  apply (@success_within_timeout_and_capture 5 slow 1 0 2 3 (1 # 2)
           slow_blank_pane world0 4 1 0 "slow" (mkWorld 4 1 1 1)).
  - exact slow_resolves_blank.
  - vm_compute. reflexivity.
Defined.


Lemma larger_timeout_keeps_success_witness :
  wait_idle 10 dev 1 0 30 1 (1 # 5) world0 =
  (Some (WaitSuccess (3125 # 3125) 1 0 "dev"), mkWorld (3125 # 3125) 1 6 6).
Proof.
  apply (@larger_timeout_keeps_success 10 dev 1 0 5 30 1 (1 # 5) abc_pane
           world0).
  - exact dev_resolves_abc.
  - unfold Qle. simpl. lia.
  - vm_compute. reflexivity.
Defined.

Lemma negative_poll_interval_fails_witness :
  wait_idle 1 dev 1 0 5 1 (-1 # 5) world0 =
  (Some (Error "sleep length must be non-negative" "WAIT_IDLE_FAILED"),
   fetched abc_pane true (looked world0)).
Proof.
  apply (@negative_poll_interval_fails 0 dev 1 0 5 1 (-1 # 5) abc_pane world0
           (Some ["abc"])).
  - exact dev_resolves_abc.
  - unfold Qlt. simpl. lia.
  - unfold Qlt. simpl. lia.
  - reflexivity.
  - right. discriminate.
Defined.


Lemma init_session_is_listed_witness :
  exists ls,
    In ls two_sessions /\ listed ls = mkSession "$1" [] /\
    listed_name ls = session_name (manager (__init__ two_sessions None "ops" false)).
Proof.
  apply (proj2 (init_session_is_listed two_sessions None "ops" false)).
  reflexivity.
Defined.

Lemma init_picks_named_or_first_witness :
  manager (__init__ two_sessions None "nope" false) =
    mkManager "dev" (Some dev_session) /\
  session_name (manager (__init__ two_sessions None "nope" false)) <> "nope".
Proof.
  apply (proj2 (init_picks_named_or_first two_sessions None "nope" false))
    with (first := mkListed "dev" dev_session)
         (rest := [mkListed "ops" (mkSession "$1" [])]).
  - intros ls [<-|[<-|[]]]; discriminate.
  - reflexivity.
Defined.

Lemma send_command_reaches_only_target_witness :
  tmux_calls (calls (snd (send_command obliging dev_object 1 0 "ls" true host0)))
  = [SendKeys abc_pane "ls" true] /\
  fst (send_command obliging dev_object 1 0 "ls" true host0) =
  CommandSent "ls" 1 0 "dev".
Proof.
  destruct (send_command_reaches_only_target obliging dev_object 1 0 "ls" true
              host0) as (_ & _ & A & _).
  exact (A abc_pane dev_resolves_abc).
Defined.

Lemma kill_pane_agrees_with_lookup_witness :
  calls (snd (kill_pane obliging dev_object 1 3 host0)) = [KillPane log_pane] /\
  fst (kill_pane obliging dev_object 1 3 host0) = PaneKilled 1 3 "dev".
Proof.
  destruct (kill_pane_agrees_with_lookup obliging dev_object 1 3 host0)
    as (A & _).
  exact (A log_pane dev_resolves_log).
Defined.

Lemma kill_window_only_the_indexed_witness :
  calls (snd (kill_window obliging dev_object 2 host0)) = calls host0 /\
  fst (kill_window obliging dev_object 2 host0) =
  Failed ("Window " ++ Py.str 2 ++ " not found") "WINDOW_NOT_FOUND".
Proof.
  destruct (kill_window_only_the_indexed obliging dev_object 2 host0)
    as (_ & B).
  apply (B dev_session).
  - reflexivity.
  - intros win [<-|[]]. discriminate.
Defined.


Lemma create_window_starts_shell_first_witness :
  doings
    (calls (snd (create_window obliging dev_object "build" (Some "make")
                               "/bin/bash" host0))) =
  [NewWindow dev_session "build"; SendKeys abc_pane "/bin/bash" true;
   Slept (1 # 5); SendKeys abc_pane "make" true] /\
  clock (env (snd (create_window obliging dev_object "build" (Some "make")
                                 "/bin/bash" host0))) =
  clock (env host0) + (1 # 5) /\
  fst (create_window obliging dev_object "build" (Some "make")
                     "/bin/bash" host0) =
  WindowCreated "$0:7" 7 "%0" "build" "dev" false.
Proof.
  apply (@create_window_starts_shell_first obliging dev_object "build"
           (Some "make") "/bin/bash" host0 dev_session
           (mkWindow "7" [abc_pane]) abc_pane); reflexivity.
Defined.

Lemma create_window_gives_up_early_witness :
  fst (create_window bare dev_object "build" (Some "make") "/bin/bash" host0) =
  Failed "No attached pane found in new window" "CREATE_WINDOW_FAILED" /\
  calls (snd (create_window bare dev_object "build" (Some "make")
                            "/bin/bash" host0)) =
  (calls host0 ++ [NewWindow dev_session "build"])%list /\
  env (snd (create_window bare dev_object "build" (Some "make")
                          "/bin/bash" host0)) = env host0.
Proof.
  destruct (@create_window_gives_up_early bare dev_object "build"
              (Some "make") "/bin/bash" host0 dev_session eq_refl)
    as (_ & B & _).
  apply (B (mkWindow "7" [])); reflexivity.
Defined.

Lemma no_session_no_calls_witness :
  send_command obliging (__init__ [] None "dev" false) 1 0 "ls" true host0 =
  (Failed no_session "SEND_COMMAND_FAILED", host0).
Proof.
  destruct (@no_session_no_calls obliging (__init__ [] None "dev" false)
              host0 eq_refl) as (_ & _ & A & _).
  apply A.
Defined.
